(** * The command terminal of the portfolio page

    A shallow embedding of the terminal widget script: the command table
    [commands], the [keydown] listener of the input field, the [click]
    listener of the terminal body and [executeCommand], together with the
    parts of the JavaScript runtime they rely on (String.prototype.toLowerCase,
    String.prototype.trim, property lookup through the prototype chain,
    ToBoolean and ToString).

    Strings.  A JavaScript string is a sequence of UTF-16 code units.  The
    development covers the strings whose code units lie in U+0000..U+00FF:
    a character of a Rocq [string] stands for the code unit of the same
    number.  [toLowerCase] and [trim] map such strings to such strings;
    [toUpperCase] leaves them at the micro sign and at y with diaeresis, so
    its result is a string over the wider alphabet [JS.codeUnit].

    Markup.  An echo entry holds the markup assigned to its innerHTML;
    [textOf] gives the text of such markup where it is made of span tags and
    of text without markup characters.

    Page.  The script installs its listeners only when the page has the
    elements #terminal-input and #terminal-history; the model is the page on
    which .terminal-body exists as well, so that no statement of
    [executeCommand] throws. *)

From Stdlib Require Import Bool Arith List ZArith Lia Ascii String DecimalString.
Import ListNotations.

Open Scope string_scope.

(** ** Characters and strings of the runtime *)

Module JS.

(** The code unit of a character. *)
Definition code (c : ascii) : N := N_of_ascii c.

Definition inRange (lo hi : N) (c : ascii) : bool :=
  (N.leb lo (code c) && N.leb (code c) hi)%bool.

(** WhiteSpace and LineTerminator code units below U+0100, the ones that
    String.prototype.trim strips: TAB, LF, VT, FF, CR, SP and NBSP. *)
Definition isWhiteSpace (c : ascii) : bool :=
  (inRange 9 13 c || N.eqb (code c) 32 || N.eqb (code c) 160)%bool.

(** Simple lower-case mapping of the Basic Latin and Latin-1 Supplement
    blocks: A-Z, and U+00C0..U+00DE without the multiplication sign U+00D7,
    move up by 32; every other code unit is its own lower case. *)
Definition lowerChar (c : ascii) : ascii :=
  if (inRange 65 90 c || inRange 192 214 c || inRange 216 222 c)%bool
  then ascii_of_N (code c + 32)
  else c.

(** Code units.  Upper-casing a code unit below U+0100 gives code units
    below U+0100 again, except for the micro sign U+00B5 and y with
    diaeresis U+00FF, whose capitals are U+039C and U+0178; with U+03BC, the
    lower case of U+039C, these are all the code units that case mapping
    reaches from the ones below U+0100. *)
Inductive codeUnit : Type :=
  | Latin1 (c : ascii)
  | U0178    (* capital y with diaeresis *)
  | U039C    (* capital mu *)
  | U03BC    (* small mu *).

(** A string over these code units. *)
Definition ustring : Type := list codeUnit.

(** Upper-case mapping of a code unit below U+0100: a-z, and U+00E0..U+00FE
    without the division sign U+00F7, move down by 32; sharp s (U+00DF) has
    the two letter capital "SS"; every other code unit is its own upper
    case. *)
Definition upperChar (c : ascii) : ustring :=
  if (inRange 97 122 c || inRange 224 246 c || inRange 248 254 c)%bool
  then [Latin1 (ascii_of_N (code c - 32))]
  else if N.eqb (code c) 223 then [Latin1 "S"; Latin1 "S"]
  else if N.eqb (code c) 181 then [U039C]
  else if N.eqb (code c) 255 then [U0178]
  else [Latin1 c].

(** String.prototype.toLowerCase *)
Fixpoint toLowerCase (s : string) : string :=
  match s with
  | "" => ""
  | String c s' => String (lowerChar c) (toLowerCase s')
  end.

(** String.prototype.toUpperCase *)
Fixpoint toUpperCase (s : string) : ustring :=
  match s with
  | "" => []
  | String c s' => (upperChar c ++ toUpperCase s')%list
  end.

(** String.prototype.trimStart *)
Fixpoint trimStart (s : string) : string :=
  match s with
  | "" => ""
  | String c s' => if isWhiteSpace c then trimStart s' else s
  end.

(** String.prototype.trimEnd *)
Fixpoint trimEnd (s : string) : string :=
  match s with
  | "" => ""
  | String c s' =>
      match trimEnd s' with
      | "" => if isWhiteSpace c then "" else String c ""
      | t => String c t
      end
  end.

(** String.prototype.trim *)
Definition trim (s : string) : string := trimEnd (trimStart s).

(** Lower-case mapping, white space and trimming on the wider strings. *)
Definition lowerUnit (u : codeUnit) : codeUnit :=
  match u with
  | Latin1 c => Latin1 (lowerChar c)
  | U0178 => Latin1 "255"
  | U039C => U03BC
  | U03BC => U03BC
  end.

Definition toLowerCaseU (s : ustring) : ustring := map lowerUnit s.

Definition isWhiteSpaceU (u : codeUnit) : bool :=
  match u with
  | Latin1 c => isWhiteSpace c
  | _ => false
  end.

Fixpoint trimStartU (s : ustring) : ustring :=
  match s with
  | [] => []
  | u :: s' => if isWhiteSpaceU u then trimStartU s' else s
  end.

Fixpoint trimEndU (s : ustring) : ustring :=
  match s with
  | [] => []
  | u :: s' =>
      match trimEndU s' with
      | [] => if isWhiteSpaceU u then [] else [u]
      | t => u :: t
      end
  end.

Definition trimU (s : ustring) : ustring := trimEndU (trimStartU s).

(** A string below U+0100 as a wider string, and back. *)
Fixpoint widen (s : string) : ustring :=
  match s with
  | "" => []
  | String c s' => Latin1 c :: widen s'
  end.

Fixpoint narrow (s : ustring) : option string :=
  match s with
  | [] => Some ""
  | Latin1 c :: s' => option_map (String c) (narrow s')
  | _ :: _ => None
  end.

Fixpoint allWhiteSpace (s : string) : bool :=
  match s with
  | "" => true
  | String c s' => (isWhiteSpace c && allWhiteSpace s')%bool
  end.

(** [startsWith p s]: String.prototype.startsWith *)
Fixpoint startsWith (p s : string) : bool :=
  match p, s with
  | "", _ => true
  | String a p', String b s' => (Ascii.eqb a b && startsWith p' s')%bool
  | String _ _, "" => false
  end.

(** [includes sub s]: String.prototype.includes *)
Fixpoint includes (sub s : string) : bool :=
  (startsWith sub s ||
   match s with
   | "" => false
   | String _ s' => includes sub s'
   end)%bool.

(** The values a property read on the command table can produce. *)
Inductive value : Type :=
  | Undefined
  | Str (s : string)
  | ObjectPrototype                (* the object Object.prototype *)
  | NativeFunction (name : string) (* a built-in function object *).

(** ToBoolean *)
Definition toBoolean (v : value) : bool :=
  match v with
  | Undefined => false
  | Str s => negb (s =? "")
  | ObjectPrototype => true
  | NativeFunction _ => true
  end.

(** ToString.  The source text of a built-in function is host-defined within
    the NativeFunction grammar; it is spelled here as V8 and JavaScriptCore
    print it. *)
Definition toString (v : value) : string :=
  match v with
  | Undefined => "undefined"
  | Str s => s
  | ObjectPrototype => "[object Object]"
  | NativeFunction name => "function " ++ name ++ "() { [native code] }"
  end.

(** An object literal: its own properties in insertion order.  Its prototype
    is Object.prototype. *)
Definition object := list (string * string).

Fixpoint getOwnProperty (o : object) (k : string) : option string :=
  match o with
  | [] => None
  | (k', v) :: o' => if k' =? k then Some v else getOwnProperty o' k
  end.

Definition keys (o : object) : list string := map fst o.

(** The function-valued properties of Object.prototype.  The function held
    under "constructor" is Object itself. *)
Definition objectPrototypeMethods : list (string * string) :=
  [ ("constructor", "Object");
    ("__defineGetter__", "__defineGetter__");
    ("__defineSetter__", "__defineSetter__");
    ("hasOwnProperty", "hasOwnProperty");
    ("__lookupGetter__", "__lookupGetter__");
    ("__lookupSetter__", "__lookupSetter__");
    ("isPrototypeOf", "isPrototypeOf");
    ("propertyIsEnumerable", "propertyIsEnumerable");
    ("toString", "toString");
    ("valueOf", "valueOf");
    ("toLocaleString", "toLocaleString") ].

(** [get o k] is the property read [o[k]]: an own property first, then the
    properties inherited from Object.prototype, whose accessor "__proto__"
    returns the prototype of [o]. *)
Definition get (o : object) (k : string) : value :=
  match getOwnProperty o k with
  | Some v => Str v
  | None =>
      if k =? "__proto__" then ObjectPrototype
      else match getOwnProperty objectPrototypeMethods k with
           | Some name => NativeFunction name
           | None => Undefined
           end
  end.

End JS.

(** ** The page: elements and terminal state *)

(** The double quote character, as a string. *)
Definition dq : string := String "034"%char "".

(** What a created div holds: markup assigned to innerHTML, or text assigned
    to textContent. *)
Inductive content : Type :=
  | InnerHTML (markup : string)
  | TextContent (text : string).

(** A div created by [executeCommand]. *)
Record element : Type := mkElement {
  className : string;
  marginBottom : string;   (* style.marginBottom, empty when unset *)
  inner : content
}.

Definition contentString (e : element) : string :=
  match inner e with
  | InnerHTML s => s
  | TextContent s => s
  end.

(** An echo entry is a div.terminal-history-line, an output entry a
    div.terminal-output. *)
Definition isEcho (e : element) : bool := className e =? "terminal-history-line".
Definition isOutput (e : element) : bool := className e =? "terminal-output".

(** The state of the widget: the value of #terminal-input and whether it
    has the focus, the children of #terminal-history (the transcript), and
    the scroll offset of .terminal-body as the script last assigned it. *)
Record terminal : Type := mkTerminal {
  value : string;
  focused : bool;
  history : list element;
  scrollTop : Z
}.

Definition setValue (v : string) (t : terminal) : terminal :=
  mkTerminal v (focused t) (history t) (scrollTop t).
Definition setFocused (b : bool) (t : terminal) : terminal :=
  mkTerminal (value t) b (history t) (scrollTop t).
Definition setHistory (h : list element) (t : terminal) : terminal :=
  mkTerminal (value t) (focused t) h (scrollTop t).
Definition setScrollTop (z : Z) (t : terminal) : terminal :=
  mkTerminal (value t) (focused t) (history t) z.

(** terminalHistory.appendChild *)
Definition appendChild (e : element) (t : terminal) : terminal :=
  setHistory (history t ++ [e]) t.

(** ** The script *)

(** const commands = { ... } *)
Definition commands : JS.object :=
  [ ("help", "Available commands: help, clear, whoami, ls, projects, skills, contact, social");
    ("whoami", "Aryan Yadav - CS Student, Web Developer, and Cybersecurity Enthusiast.");
    ("ls", "about.txt  projects/  skills/  certifications/");
    ("projects", "Featured: Property Shodh, Virtual Office. Type " ++ dq ++ "ls projects" ++ dq ++ " for details.");
    ("skills", "Languages: Python, JS, TS, Java, C++. Frontend: React, Next.js. Backend: Node.js, Express.");
    ("contact", "Email: aryan.yadav.prof@gmail.com");
    ("social", "GitHub: github.com/Aryan20051  |  LinkedIn: linkedin.com/in/aryan-yadav01") ].

(** The markup in front of the command text in an echo entry; it renders as
    the prompt aryan@dev:~$ and a space. *)
Definition promptMarkup : string :=
  "<span class=" ++ dq ++ "terminal-prompt" ++ dq ++ ">aryan@dev</span>" ++
  "<span class=" ++ dq ++ "terminal-text" ++ dq ++ ">:~$</span> <span>".

(** The div built at the top of [executeCommand]. *)
Definition historyLine (cmd : string) : element :=
  mkElement "terminal-history-line" "" (InnerHTML (promptMarkup ++ cmd ++ "</span>")).

Definition notFound (cmd : string) : string :=
  "Command not found: " ++ cmd ++ ". Type 'help' for available commands.".

(** The text given to the output div. *)
Definition outputText (cmd : string) : string :=
  if JS.toBoolean (JS.get commands cmd)
  then JS.toString (JS.get commands cmd)
  else notFound cmd.

(** The div built in the second half of [executeCommand]. *)
Definition output (cmd : string) : element :=
  mkElement "terminal-output" "12px" (TextContent (outputText cmd)).

Section Terminal.

(** Layout of .terminal-body: the height of its content, which depends on
    the transcript it shows, and the height of its box. *)
Variable scrollHeight : list element -> Z.
Variable clientHeight : Z.

(** Assigning to scrollTop: the browser clamps the offset to the scrollable
    range. *)
Definition assignScrollTop (z : Z) (t : terminal) : terminal :=
  setScrollTop (Z.max 0 (Z.min z (scrollHeight (history t) - clientHeight))) t.

Definition executeCommand (cmd : string) (t : terminal) : terminal :=
  let t1 := appendChild (historyLine cmd) t in
  if cmd =? "" then t1
  else if cmd =? "clear" then setHistory [] t1
  else
    let t2 := appendChild (output cmd) t1 in
    assignScrollTop (scrollHeight (history t2)) t2.

(** terminalInput.value.toLowerCase().trim() *)
Definition normalize (raw : string) : string := JS.trim (JS.toLowerCase raw).

(** The keydown listener of #terminal-input. *)
Definition keydown (key : string) (t : terminal) : terminal :=
  if key =? "Enter" then
    let input := normalize (value t) in
    setValue "" (executeCommand input t)
  else t.

(** The click listener of .terminal-body. *)
Definition click (t : terminal) : terminal := setFocused true t.

(** [execute raw]: the user has typed [raw] into the input field and
    presses Enter. *)
Definition execute (raw : string) (t : terminal) : terminal :=
  keydown "Enter" (setValue raw t).

(** A session: inputs submitted one after the other. *)
Definition run (inputs : list string) (t : terminal) : terminal :=
  fold_left (fun t raw => execute raw t) inputs t.

End Terminal.

(** The names the help text lists: what follows "Available commands: ",
    split at ", ". *)
Fixpoint splitCommaSpace (acc s : string) : list string :=
  match s with
  | "" => [acc]
  | String c s' =>
      if JS.startsWith ", " s
      then acc :: match s' with
                  | "" => [""]
                  | String _ s'' => splitCommaSpace "" s''
                  end
      else splitCommaSpace (acc ++ String c "") s'
  end.

Definition helpNames : list string :=
  match JS.getOwnProperty commands "help" with
  | Some text =>
      if JS.startsWith "Available commands: " text
      then splitCommaSpace "" (substring 20 (length text - 20) text)
      else []
  | None => []
  end.

(** A sample page for concrete runs: every transcript entry is 20 pixels
    high, the body shows 30 pixels, nothing has been typed yet. *)
Definition sampleScrollHeight (h : list element) : Z := 20 * Z.of_nat (List.length h).
Definition sampleClientHeight : Z := 30.
Definition emptyTerminal : terminal := mkTerminal "" false [] 0.

(** Sharp s, U+00DF. *)
Definition sharpS : string := String "223"%char "".

(** No character of [s] is sharp s. *)
Fixpoint noSharpS (s : string) : bool :=
  match s with
  | "" => true
  | String c s' => (negb (N.eqb (JS.code c) 223) && noSharpS s')%bool
  end.

(** The micro sign, U+00B5, and the strings without it. *)
Definition micro : string := String "181"%char "".

Fixpoint noMicro (s : string) : bool :=
  match s with
  | "" => true
  | String c s' => (negb (N.eqb (JS.code c) 181) && noMicro s')%bool
  end.

(** value.toLowerCase().trim() on the wider strings. *)
Definition normalizeU (raw : JS.ustring) : JS.ustring :=
  JS.trimU (JS.toLowerCaseU raw).

(** [executeU raw]: Enter is pressed while the input field holds the text
    [raw] over the wider code units.  The listener normalises it and passes
    the result to [executeCommand]; [None] when that result has a code unit
    at or above U+0100, a command text the development does not cover. *)
Definition executeU (scrollHeight : list element -> Z) (clientHeight : Z)
    (raw : JS.ustring) (t : terminal) : option terminal :=
  match JS.narrow (normalizeU raw) with
  | Some input => Some (setValue "" (executeCommand scrollHeight clientHeight input t))
  | None => None
  end.

(** Where the parser of innerHTML stands. *)
Inductive parserState : Type :=
  | Data      (* between tags *)
  | Tag       (* inside a tag *)
  | Quoted    (* inside a double-quoted attribute value *).

(** Characters of a text that the parser does not take as they are: the
    start of a tag or of a character reference, and NUL and CR, which it
    drops or replaces. *)
Definition isMarkup (c : ascii) : bool :=
  ((c =? "<") || (c =? "&") || (c =? "000") || (c =? "013"))%char.

(** No character of [s] is one of these. *)
Fixpoint plainText (s : string) : bool :=
  match s with
  | "" => true
  | String c s' => (negb (isMarkup c) && plainText s')%bool
  end.

(** [textOf Data markup]: the textContent of an element after
    [innerHTML = markup], for markup made of span start and end tags with
    double-quoted attribute values and of text free of the characters of
    [isMarkup]; [None] for any other markup. *)
Fixpoint textOf (st : parserState) (s : string) : option string :=
  match s with
  | "" => match st with Data => Some "" | _ => None end
  | String c s' =>
      match st with
      | Data =>
          if (c =? "<")%char then
            if (JS.startsWith "span " s' || JS.startsWith "span>" s' ||
                JS.startsWith "/span>" s')%bool
            then textOf Tag s' else None
          else if isMarkup c then None
          else option_map (String c) (textOf Data s')
      | Tag =>
          if (c =? ">")%char then textOf Data s'
          else if (c =? "034")%char then textOf Quoted s'
          else if (c =? "'")%char then None
          else textOf Tag s'
      | Quoted =>
          if (c =? "034")%char then textOf Tag s' else textOf Quoted s'
      end
  end.

(** Positions in a transcript. *)
Definition followsEcho (h : list element) : Prop :=
  forall i o, nth_error h i = Some o -> isOutput o = true ->
    exists j e, i = S j /\ nth_error h j = Some e /\ isEcho e = true.

Definition atMostOneOutput (h : list element) : Prop :=
  forall i e o1 o2,
    nth_error h i = Some e -> isEcho e = true ->
    nth_error h (i + 1) = Some o1 -> isOutput o1 = true ->
    nth_error h (i + 2) = Some o2 -> isOutput o2 = false.

(** What one submission of the normalised text [cmd], other than "clear",
    leaves in the transcript. *)
Definition block (cmd : string) : list element :=
  if cmd =? "" then [historyLine cmd] else [historyLine cmd; output cmd].

(** The normalised texts that still show: [acc] followed by [cmds], cut
    after the last "clear". *)
Fixpoint sinceClear (acc cmds : list string) : list string :=
  match cmds with
  | [] => acc
  | c :: rest =>
      if c =? "clear" then sinceClear [] rest else sinceClear (acc ++ [c])%list rest
  end.

(** ** The contact form

    The second script of the file: validation of the contact form.  The
    page is the one on which the inputs #contact-name, #contact-email and
    #contact-message exist; their ids contain no quote, so the selector
    built by [getLabelText] is the attribute test it reads as. *)

Module ContactForm.

(** DOMTokenList: contains, add and remove. *)
Definition contains (c : string) (l : list string) : bool :=
  existsb (String.eqb c) l.
Definition add (c : string) (l : list string) : list string :=
  if contains c l then l else (l ++ [c])%list.
Definition remove (c : string) (l : list string) : list string :=
  filter (fun x => negb (x =? c)) l.

(** An element of the form with the properties the script reads and
    writes. *)
Record element : Type := mkElement {
  id : string;
  name : string;
  type : string;
  required : bool;
  value : string;
  classList : list string;
  ariaInvalid : option string;   (* the attribute aria-invalid *)
  touched : option string;       (* dataset.touched *)
  textContent : string
}.

Definition setValue (v : string) (e : element) : element :=
  mkElement (id e) (name e) (type e) (required e) v (classList e)
    (ariaInvalid e) (touched e) (textContent e).
Definition setClassList (l : list string) (e : element) : element :=
  mkElement (id e) (name e) (type e) (required e) (value e) l
    (ariaInvalid e) (touched e) (textContent e).
Definition setAriaInvalid (a : option string) (e : element) : element :=
  mkElement (id e) (name e) (type e) (required e) (value e) (classList e)
    a (touched e) (textContent e).
Definition setTouched (d : option string) (e : element) : element :=
  mkElement (id e) (name e) (type e) (required e) (value e) (classList e)
    (ariaInvalid e) d (textContent e).
Definition setTextContent (x : string) (e : element) : element :=
  mkElement (id e) (name e) (type e) (required e) (value e) (classList e)
    (ariaInvalid e) (touched e) x.

(** Truthiness of an optional string property. *)
Definition truthy (d : option string) : bool :=
  match d with
  | Some x => negb (x =? "")
  | None => false
  end.

(** Decimal text of a number in a template literal. *)
Definition numberToString (n : nat) : string :=
  NilEmpty.string_of_uint (Nat.to_uint n).

Definition MAX_MESSAGE_LENGTH : nat := 1000.

(** Anchored regular expressions that are a sequence of character classes,
    each taken once or one or more times. *)
Inductive atom : Type :=
  | One (p : ascii -> bool)
  | Many (p : ascii -> bool).

(** RegExp.prototype.test for such an expression between ^ and $. *)
Fixpoint test (re : list atom) (s : string) : bool :=
  match s with
  | "" => match re with [] => true | _ :: _ => false end
  | String c s' =>
      match re with
      | [] => false
      | One p :: re' => (p c && test re' s')%bool
      | Many p :: re' => (p c && (test re s' || test re' s'))%bool
      end
  end.

(** The class [^\s@] *)
Definition notSpaceNorAt (c : ascii) : bool :=
  negb (JS.isWhiteSpace c || (c =? "@")%char).

(** /^[^\s@]+@[^\s@]+\.[^\s@]+$/ *)
Definition EMAIL_REGEX : list atom :=
  [ Many notSpaceNorAt; One (Ascii.eqb "@"); Many notSpaceNorAt;
    One (Ascii.eqb "."); Many notSpaceNorAt ].

(** Number of leading white space characters: what \s* takes. *)
Fixpoint spaces (s : string) : nat :=
  match s with
  | "" => 0
  | String c s' => if JS.isWhiteSpace c then S (spaces s') else 0
  end.

Fixpoint drop (n : nat) (s : string) : string :=
  match n, s with
  | 0, _ => s
  | S _, "" => ""
  | S k, String _ s' => drop k s'
  end.

(** Length of the match of /\s*\*\s*|\s*\(Optional\)\s*/ at the start of
    [s], if there is one.  Both alternatives take a run of white space, which
    cannot be given back since neither "*" nor "(" is white space. *)
Definition matchMark (s : string) : option nat :=
  let w := spaces s in
  let r := drop w s in
  match r with
  | String "*" r' => Some (w + 1 + spaces r')
  | _ =>
      if JS.startsWith "(Optional)" r
      then Some (w + 10 + spaces (drop 10 r))
      else None
  end.

(** text.replace(/\s*\*\s*|\s*\(Optional\)\s*/g, ''): [skip] characters
    of the current match are still to be passed over. *)
Fixpoint removeMarks (skip : nat) (s : string) : string :=
  match s with
  | "" => ""
  | String c s' =>
      match skip with
      | S k => removeMarks k s'
      | 0 =>
          match matchMark s with
          | Some n => removeMarks (n - 1) s'
          | None => String c (removeMarks 0 s')
          end
      end
  end.

(** document.querySelector('label[for="..."]'): [labels] are the label
    elements of the page in document order, each with its for attribute and
    its text. *)
Fixpoint queryLabel (labels : list (string * string)) (for_ : string) : option string :=
  match labels with
  | [] => None
  | (f, text) :: rest => if f =? for_ then Some text else queryLabel rest for_
  end.

Definition getLabelText (labels : list (string * string)) (input : element) : string :=
  match queryLabel labels (id input) with
  | Some text => JS.trim (removeMarks 0 text)
  | None => if name input =? "" then "This field" else name input
  end.

(** The checks of [validateField]: the pair of isValid and errorMessage
    they leave. *)
Definition validate (labels : list (string * string)) (input : element) : bool * string :=
  let value := JS.trim (value input) in
  if (required input && (value =? ""))%bool then
    (false, getLabelText labels input ++ " is required")
  else if ((type input =? "email") && negb (value =? "") &&
           negb (test EMAIL_REGEX value))%bool then
    (false, "Please enter a valid email address")
  else if ((id input =? "contact-message") &&
           (MAX_MESSAGE_LENGTH <? length value)%nat)%bool then
    (false, "Message cannot exceed " ++ numberToString MAX_MESSAGE_LENGTH ++ " characters")
  else if ((id input =? "contact-message") && negb (value =? "") &&
           (length value <? 10)%nat)%bool then
    (false, "Please provide a bit more detail (at least 10 characters)")
  else (true, "").

(** validateField(input, errorId), with the element of id errorId, if the
    page has one, in place of errorId.  The result is the input, the error
    element and the returned boolean. *)
Definition validateField (labels : list (string * string))
    (input : element) (errorEl : option element) : element * option element * bool :=
  let touchedInput := setTouched (Some "true") input in
  let (isValid, errorMessage) := validate labels touchedInput in
  if isValid then
    (setAriaInvalid (Some "false")
       (setClassList (add "valid" (remove "error" (classList touchedInput))) touchedInput),
     option_map (fun e => setClassList (remove "visible" (classList e))
                            (setTextContent "" e)) errorEl,
     true)
  else
    (setAriaInvalid (Some "true")
       (setClassList (remove "valid" (add "error" (classList touchedInput))) touchedInput),
     option_map (fun e => setClassList (add "visible" (classList e))
                            (setTextContent errorMessage e)) errorEl,
     false).

(** The form: the three validated inputs, their error elements and the
    labels of the page. *)
Record form : Type := mkForm {
  nameInput : element;
  emailInput : element;
  messageInput : element;
  nameError : option element;
  emailError : option element;
  messageError : option element;
  labels : list (string * string)
}.

Definition validateForm (f : form) : form * bool :=
  let '(n, ne, nameValid) := validateField (labels f) (nameInput f) (nameError f) in
  let '(e, ee, emailValid) := validateField (labels f) (emailInput f) (emailError f) in
  let '(m, me, messageValid) := validateField (labels f) (messageInput f) (messageError f) in
  (mkForm n e m ne ee me (labels f), (nameValid && emailValid && messageValid)%bool).

(** The input listener of the character counter, on the message input and
    the counter element. *)
Definition counterInput (input counter : element) : element * element :=
  let length := length (value input) in
  let counter1 :=
    setTextContent (numberToString length ++ " / " ++ numberToString MAX_MESSAGE_LENGTH)
      counter in
  if (MAX_MESSAGE_LENGTH <? length)%nat then
    (setClassList (add "error" (classList input)) input,
     setClassList (add "error" (classList counter1)) counter1)
  else
    (if truthy (touched input) then input
     else setClassList (remove "error" (classList input)) input,
     setClassList (remove "error" (classList counter1)) counter1).

(** The listeners installed on each of the three inputs. *)
Definition onBlur (labels : list (string * string))
    (input : element) (errorEl : option element) : element * option element :=
  if truthy (touched input) then fst (validateField labels input errorEl)
  else (input, errorEl).

Definition onInput (labels : list (string * string))
    (input : element) (errorEl : option element) : element * option element :=
  if contains "error" (classList input) then fst (validateField labels input errorEl)
  else (input, errorEl).

Definition onFocus (input : element) : element := setTouched (Some "true") input.

(** An input event on the message input of a page that has the counter:
    the listener of the counter was added first and runs first. *)
Definition onMessageInput (labels : list (string * string))
    (input : element) (errorEl : option element) (counter : element)
    : element * option element * element :=
  let (input1, counter1) := counterInput input counter in
  (onInput labels input1 errorEl, counter1).

(** The keydown listener of the form, for a key pressed while the message
    input has the focus: Escape empties an input of class form-input and
    dispatches an input event on it, which runs the input listeners. *)
Definition formKeydown (key : string) (labels : list (string * string))
    (input : element) (errorEl : option element) (counter : element)
    : element * option element * element :=
  if key =? "Escape" then
    if contains "form-input" (classList input)
    then onMessageInput labels (setValue "" input) errorEl counter
    else (input, errorEl, counter)
  else (input, errorEl, counter).

End ContactForm.

(** Every character of [s] satisfies [p]. *)
Fixpoint every (p : ascii -> bool) (s : string) : bool :=
  match s with
  | "" => true
  | String c s' => (p c && every p s')%bool
  end.

(** How often the character [c] occurs in [s]. *)
Fixpoint occurrences (c : ascii) (s : string) : nat :=
  match s with
  | "" => 0
  | String d s' => (if (d =? c)%char then 1 else 0) + occurrences c s'
  end.

(** A sample contact form for concrete runs. *)
Fixpoint replicate (n : nat) (c : ascii) : string :=
  match n with
  | 0 => ""
  | S k => String c (replicate k c)
  end.

Definition sampleLabels : list (string * string) :=
  [ ("contact-name", "Name *"); ("contact-email", "Email *");
    ("contact-subject", "Subject (Optional)"); ("contact-message", "Message *") ].

Definition sampleEmail (v : string) : ContactForm.element :=
  ContactForm.mkElement "contact-email" "email" "email" true v ["form-input"] None None "".

Definition sampleMessage (v : string) : ContactForm.element :=
  ContactForm.mkElement "contact-message" "message" "textarea" true v ["form-input"]
    None None "".

Definition sampleError : ContactForm.element :=
  ContactForm.mkElement "message-error" "" "" false "" ["form-error"] None None "".

Definition sampleCounter : ContactForm.element :=
  ContactForm.mkElement "message-counter" "" "" false "" ["char-counter"] None None
    "0 / 1000".

(** ** Facts about strings *)

Lemma append_empty_r (s : string) : s ++ "" = s.
Proof. induction s as [|c s IH]; simpl; [reflexivity | now rewrite IH]. Qed.

Lemma append_assoc (a b c : string) : (a ++ b) ++ c = a ++ (b ++ c).
Proof. induction a as [|x a IH]; simpl; [reflexivity | now rewrite IH]. Qed.

Lemma startsWith_append (p s : string) : JS.startsWith p (p ++ s) = true.
Proof.
  induction p as [|a p IH]; simpl; [reflexivity|].
  now rewrite Ascii.eqb_refl, IH.
Qed.

Lemma startsWith_split (p s : string) :
  JS.startsWith p s = true -> exists post, s = p ++ post.
Proof.
  revert s; induction p as [|a p IH]; intros s H.
  - now exists s.
  - destruct s as [|b s]; simpl in H; [discriminate|].
    apply andb_true_iff in H as [Hab Hp].
    apply Ascii.eqb_eq in Hab; subst b.
    destruct (IH _ Hp) as [post ->]. now exists post.
Qed.

Lemma includes_intro (sub pre post : string) :
  JS.includes sub (pre ++ sub ++ post) = true.
Proof.
  induction pre as [|c pre IH].
  - simpl. destruct (sub ++ post) eqn:E.
    + simpl. rewrite <- E, startsWith_append. reflexivity.
    + simpl JS.includes. rewrite <- E, startsWith_append. reflexivity.
  - simpl append. simpl JS.includes. rewrite IH. apply orb_true_r.
Qed.

Lemma includes_split (sub s : string) :
  JS.includes sub s = true -> exists pre post, s = pre ++ sub ++ post.
Proof.
  induction s as [|c s IH]; simpl; intros H.
  - rewrite orb_false_r in H. destruct (startsWith_split _ _ H) as [post E].
    exists "", post. exact E.
  - apply orb_true_iff in H as [H|H].
    + destruct (startsWith_split _ _ H) as [post E]. exists "", post. exact E.
    + destruct (IH H) as (pre & post & ->). now exists (String c pre), post.
Qed.

(** ** Facts about normalisation *)

Ltac each_char c :=
  destruct c as [[] [] [] [] [] [] [] []]; vm_compute; try reflexivity; try discriminate.

Lemma lowerChar_idem (c : ascii) : JS.lowerChar (JS.lowerChar c) = JS.lowerChar c.
Proof. each_char c. Qed.

Lemma isWhiteSpace_lowerChar (c : ascii) :
  JS.isWhiteSpace (JS.lowerChar c) = JS.isWhiteSpace c.
Proof. each_char c. Qed.

Lemma lowerChar_whiteSpace (c : ascii) :
  JS.isWhiteSpace c = true -> JS.lowerChar c = c.
Proof. each_char c. Qed.

Lemma toLowerCase_append (a b : string) :
  JS.toLowerCase (a ++ b) = JS.toLowerCase a ++ JS.toLowerCase b.
Proof. induction a as [|c a IH]; simpl; [reflexivity | now rewrite IH]. Qed.

Lemma toLowerCase_idem (s : string) :
  JS.toLowerCase (JS.toLowerCase s) = JS.toLowerCase s.
Proof.
  induction s as [|c s IH]; simpl; [reflexivity|].
  now rewrite lowerChar_idem, IH.
Qed.

Lemma toLowerCase_trimStart (s : string) :
  JS.toLowerCase (JS.trimStart s) = JS.trimStart (JS.toLowerCase s).
Proof.
  induction s as [|c s IH]; simpl; [reflexivity|].
  rewrite isWhiteSpace_lowerChar.
  destruct (JS.isWhiteSpace c); [exact IH | reflexivity].
Qed.

Lemma toLowerCase_empty (s : string) : JS.toLowerCase s = "" -> s = "".
Proof. destruct s; simpl; [reflexivity | discriminate]. Qed.

Lemma toLowerCase_trimEnd (s : string) :
  JS.toLowerCase (JS.trimEnd s) = JS.trimEnd (JS.toLowerCase s).
Proof.
  induction s as [|c s IH]; simpl; [reflexivity|].
  rewrite <- IH, isWhiteSpace_lowerChar.
  destruct (JS.trimEnd s) as [|d t] eqn:E; simpl.
  - destruct (JS.isWhiteSpace c); reflexivity.
  - reflexivity.
Qed.

Lemma trimEnd_idem (s : string) : JS.trimEnd (JS.trimEnd s) = JS.trimEnd s.
Proof.
  induction s as [|c s IH]; simpl; [reflexivity|].
  destruct (JS.trimEnd s) as [|d t] eqn:E.
  - destruct (JS.isWhiteSpace c) eqn:W; simpl; [reflexivity | now rewrite W].
  - change (JS.trimEnd (String c (String d t))) with
      (match JS.trimEnd (String d t) with
       | "" => if JS.isWhiteSpace c then "" else String c ""
       | u => String c u
       end).
    now rewrite IH.
Qed.

Lemma trimStart_trimEnd (s : string) :
  JS.trimStart (JS.trimEnd (JS.trimStart s)) = JS.trimEnd (JS.trimStart s).
Proof.
  induction s as [|c s IH]; simpl; [reflexivity|].
  destruct (JS.isWhiteSpace c) eqn:W; [exact IH|].
  simpl. destruct (JS.trimEnd s); rewrite ?W; simpl; now rewrite W.
Qed.

Lemma trim_idem (s : string) : JS.trim (JS.trim s) = JS.trim s.
Proof. unfold JS.trim. now rewrite trimStart_trimEnd, trimEnd_idem. Qed.

Lemma normalize_idem (s : string) : normalize (normalize s) = normalize s.
Proof.
  unfold normalize, JS.trim.
  now rewrite toLowerCase_trimEnd, toLowerCase_trimStart, toLowerCase_idem,
    trimStart_trimEnd, trimEnd_idem.
Qed.

Lemma trimStart_whiteSpace (pre s : string) :
  JS.allWhiteSpace pre = true -> JS.trimStart (pre ++ s) = JS.trimStart s.
Proof.
  induction pre as [|c pre IH]; simpl; intros H; [reflexivity|].
  apply andb_true_iff in H as [W H]. rewrite W. now apply IH.
Qed.

Lemma trimEnd_allWhiteSpace (post : string) :
  JS.allWhiteSpace post = true -> JS.trimEnd post = "".
Proof.
  induction post as [|c post IH]; simpl; intros H; [reflexivity|].
  apply andb_true_iff in H as [W H]. now rewrite (IH H), W.
Qed.

Lemma trimEnd_whiteSpace (s post : string) :
  JS.allWhiteSpace post = true -> JS.trimEnd (s ++ post) = JS.trimEnd s.
Proof.
  intros H. induction s as [|c s IH]; simpl.
  - now apply trimEnd_allWhiteSpace.
  - now rewrite IH.
Qed.

Lemma trimStart_allWhiteSpace (s : string) :
  JS.allWhiteSpace s = true -> JS.trimStart s = "".
Proof.
  induction s as [|c s IH]; simpl; intros H; [reflexivity|].
  apply andb_true_iff in H as [W H]. rewrite W. now apply IH.
Qed.

Lemma trim_trailing (s post : string) :
  JS.allWhiteSpace post = true ->
  JS.trimEnd (JS.trimStart (s ++ post)) = JS.trimEnd (JS.trimStart s).
Proof.
  intros H. induction s as [|c s IH]; simpl.
  - now rewrite trimStart_allWhiteSpace.
  - destruct (JS.isWhiteSpace c); [exact IH|].
    change (String c (s ++ post)) with (String c s ++ post).
    now apply trimEnd_whiteSpace.
Qed.

Lemma trim_padded (pre s post : string) :
  JS.allWhiteSpace pre = true -> JS.allWhiteSpace post = true ->
  JS.trim (pre ++ s ++ post) = JS.trim s.
Proof.
  intros Hpre Hpost. unfold JS.trim.
  rewrite trimStart_whiteSpace by assumption.
  now apply trim_trailing.
Qed.

Lemma toLowerCase_whiteSpace (s : string) :
  JS.allWhiteSpace s = true ->
  JS.toLowerCase s = s /\ JS.allWhiteSpace (JS.toLowerCase s) = true.
Proof.
  induction s as [|c s IH]; simpl; intros H; [now split|].
  apply andb_true_iff in H as [W H]. destruct (IH H) as [E A].
  rewrite isWhiteSpace_lowerChar, W, A, E, (lowerChar_whiteSpace _ W). now split.
Qed.

Lemma normalize_padded (pre s post : string) :
  JS.allWhiteSpace pre = true -> JS.allWhiteSpace post = true ->
  normalize (pre ++ s ++ post) = normalize s.
Proof.
  intros Hpre Hpost. unfold normalize.
  rewrite !toLowerCase_append.
  apply trim_padded; now apply toLowerCase_whiteSpace.
Qed.

Lemma upperChar_lower (c : ascii) :
  N.eqb (JS.code c) 223 = false -> N.eqb (JS.code c) 181 = false ->
  JS.toLowerCaseU (JS.upperChar c) = [JS.Latin1 (JS.lowerChar c)].
Proof.
  intros S M.
  destruct c as [[] [] [] [] [] [] [] []]; vm_compute in S, M;
    try discriminate; reflexivity.
Qed.

Lemma toUpperCase_lower (s : string) :
  noSharpS s = true -> noMicro s = true ->
  JS.toLowerCaseU (JS.toUpperCase s) = JS.widen (JS.toLowerCase s).
Proof.
  induction s as [|c s IH]; simpl; intros S M; [reflexivity|].
  apply andb_true_iff in S as [Sc Ss]. apply negb_true_iff in Sc.
  apply andb_true_iff in M as [Mc Ms]. apply negb_true_iff in Mc.
  unfold JS.toLowerCaseU in *. rewrite map_app.
  fold (JS.toLowerCaseU (JS.upperChar c)).
  now rewrite (upperChar_lower _ Sc Mc), (IH Ss Ms).
Qed.

Lemma trimStartU_widen (s : string) :
  JS.trimStartU (JS.widen s) = JS.widen (JS.trimStart s).
Proof.
  induction s as [|c s IH]; simpl; [reflexivity|].
  destruct (JS.isWhiteSpace c); [exact IH | reflexivity].
Qed.

Lemma trimEndU_widen (s : string) :
  JS.trimEndU (JS.widen s) = JS.widen (JS.trimEnd s).
Proof.
  induction s as [|c s IH]; simpl; [reflexivity|].
  rewrite IH. destruct (JS.trimEnd s); simpl; [|reflexivity].
  now destruct (JS.isWhiteSpace c).
Qed.

Lemma narrow_widen (s : string) : JS.narrow (JS.widen s) = Some s.
Proof. induction s as [|c s IH]; simpl; [reflexivity | now rewrite IH]. Qed.

(** Upper-casing is undone by the normalisation of the listener on the
    strings without sharp s and without micro sign. *)
Lemma normalizeU_toUpperCase (s : string) :
  noSharpS s = true -> noMicro s = true ->
  normalizeU (JS.toUpperCase s) = JS.widen (normalize s).
Proof.
  intros S M. unfold normalizeU, normalize, JS.trimU, JS.trim.
  now rewrite toUpperCase_lower, trimStartU_widen, trimEndU_widen.
Qed.

Lemma normalizeU_widen (s : string) :
  normalizeU (JS.widen s) = JS.widen (normalize s).
Proof.
  unfold normalizeU, normalize, JS.trimU, JS.trim.
  replace (JS.toLowerCaseU (JS.widen s)) with (JS.widen (JS.toLowerCase s)).
  - now rewrite trimStartU_widen, trimEndU_widen.
  - induction s as [|c s IH]; simpl; [reflexivity | now rewrite IH].
Qed.

(** ** Facts about the markup of an echo entry *)

Lemma textOf_plain (cmd rest : string) :
  plainText cmd = true ->
  textOf Data (cmd ++ rest) = option_map (append cmd) (textOf Data rest).
Proof.
  induction cmd as [|c cmd IH]; simpl; intros P.
  - now destruct (textOf Data rest).
  - apply andb_true_iff in P as [Pc P]. apply negb_true_iff in Pc.
    assert (L : (c =? "<")%char = false).
    { unfold isMarkup in Pc. now repeat apply orb_false_iff in Pc as [Pc _]. }
    rewrite L, Pc, (IH P). now destruct (textOf Data rest).
Qed.

(** The text of the markup that [executeCommand] gives an echo entry. *)
Lemma textOf_historyLine (cmd : string) :
  plainText cmd = true ->
  textOf Data (contentString (historyLine cmd)) = Some ("aryan@dev:~$ " ++ cmd).
Proof.
  intros P.
  change (contentString (historyLine cmd)) with (promptMarkup ++ cmd ++ "</span>").
  assert (E : forall rest,
             textOf Data (promptMarkup ++ rest) =
               option_map (append "aryan@dev:~$ ") (textOf Data rest)).
  { intros rest. vm_compute promptMarkup. cbn.
    now destruct (textOf Data rest). }
  rewrite E, (textOf_plain _ _ P). cbn.
  now rewrite append_empty_r.
Qed.

(** ** Facts about the command table *)

Lemma getOwnProperty_None (o : JS.object) (k : string) :
  ~ In k (JS.keys o) -> JS.getOwnProperty o k = None.
Proof.
  induction o as [|[k' v] o IH]; simpl; intros H; [reflexivity|].
  destruct (k' =? k) eqn:E.
  - apply String.eqb_eq in E. tauto.
  - apply IH. tauto.
Qed.

Lemma getOwnProperty_Some (o : JS.object) (k v : string) :
  JS.getOwnProperty o k = Some v -> In k (JS.keys o).
Proof.
  induction o as [|[k' v'] o IH]; simpl; intros H; [discriminate|].
  destruct (k' =? k) eqn:E.
  - apply String.eqb_eq in E. now left.
  - right. now apply IH.
Qed.

(** A normalised string is none of the inherited property names that have
    a capital letter. *)
Lemma normalize_not_inherited (s : string) :
  normalize s <> "constructor" ->
  JS.getOwnProperty JS.objectPrototypeMethods (normalize s) = None.
Proof.
  intros Hc.
  destruct (JS.getOwnProperty JS.objectPrototypeMethods (normalize s)) as [v|] eqn:E;
    [|reflexivity].
  apply getOwnProperty_Some in E. pose proof (normalize_idem s) as I.
  simpl in E.
  repeat (destruct E as [E|E];
          [try (symmetry in E; contradiction);
           rewrite <- E in I; vm_compute in I; discriminate|]).
  contradiction.
Qed.

Lemma outputText_notFound (s : string) :
  ~ In (normalize s) (JS.keys commands) ->
  normalize s <> "constructor" -> normalize s <> "__proto__" ->
  outputText (normalize s) = notFound (normalize s).
Proof.
  intros Hk Hc Hp. unfold outputText, JS.get.
  rewrite (getOwnProperty_None _ _ Hk).
  apply String.eqb_neq in Hp. rewrite Hp.
  now rewrite (normalize_not_inherited _ Hc).
Qed.

Lemma notFound_includes (cmd : string) :
  JS.includes cmd (notFound cmd) = true /\ JS.includes "help" (notFound cmd) = true.
Proof.
  split.
  - apply includes_intro.
  - replace (notFound cmd)
      with (("Command not found: " ++ cmd ++ ". Type '") ++ "help" ++ "' for available commands.").
    + apply includes_intro.
    + unfold notFound. now rewrite !append_assoc.
Qed.

(** ** Facts about transcripts *)

Lemma followsEcho_nil : followsEcho [].
Proof. intros [|i] o H; discriminate. Qed.

Lemma followsEcho_app (h1 h2 : list element) :
  followsEcho h1 -> followsEcho h2 -> followsEcho (h1 ++ h2).
Proof.
  intros F1 F2 i o Hn Ho.
  destruct (Nat.lt_ge_cases i (List.length h1)) as [Hi|Hi].
  - rewrite nth_error_app1 in Hn by assumption.
    destruct (F1 i o Hn Ho) as (j & e & -> & Hj & He).
    exists j, e. repeat split; try assumption.
    rewrite nth_error_app1 by lia. assumption.
  - rewrite nth_error_app2 in Hn by assumption.
    destruct (F2 _ o Hn Ho) as (j & e & Ej & Hj & He).
    exists (List.length h1 + j), e. repeat split; try assumption; [lia|].
    rewrite nth_error_app2 by lia.
    now replace (List.length h1 + j - List.length h1) with j by lia.
Qed.

Lemma followsEcho_line (cmd : string) : followsEcho [historyLine cmd].
Proof.
  intros [|[|i]] o H Ho; simpl in H; try discriminate.
  injection H as <-. discriminate.
Qed.

Lemma followsEcho_line_output (cmd : string) :
  followsEcho [historyLine cmd; output cmd].
Proof.
  intros [|[|[|i]]] o H Ho; simpl in H; try discriminate.
  - injection H as <-. discriminate.
  - exists 0, (historyLine cmd). now repeat split.
Qed.

Lemma followsEcho_atMostOneOutput (h : list element) :
  followsEcho h -> atMostOneOutput h.
Proof.
  intros F i e o1 o2 H0 He H1 Ho1 H2.
  destruct (isOutput o2) eqn:Ho2; [|reflexivity].
  destruct (F _ _ H2 Ho2) as (j & p & Ej & Hj & Hp).
  replace j with (i + 1) in Hj by lia.
  rewrite H1 in Hj. injection Hj as <-.
  unfold isEcho, isOutput in *.
  apply String.eqb_eq in Hp. rewrite Hp in Ho1. discriminate.
Qed.

(** ** The terminal *)

Section TerminalSteps.

Variable scrollHeight : list element -> Z.
Variable clientHeight : Z.

Local Open Scope list_scope.

Lemma history_executeCommand (cmd : string) (t : terminal) :
  history (executeCommand scrollHeight clientHeight cmd t) =
    if cmd =? "" then history t ++ [historyLine cmd]
    else if cmd =? "clear" then []
    else history t ++ [historyLine cmd; output cmd].
Proof.
  unfold executeCommand.
  destruct (cmd =? ""); [reflexivity|].
  destruct (cmd =? "clear"); [reflexivity|].
  simpl. now rewrite <- app_assoc.
Qed.

Lemma scrollTop_executeCommand (cmd : string) (t : terminal) :
  scrollTop (executeCommand scrollHeight clientHeight cmd t) =
    if ((cmd =? "") || (cmd =? "clear"))%bool then scrollTop t
    else
      let h := history (executeCommand scrollHeight clientHeight cmd t) in
      Z.max 0 (Z.min (scrollHeight h) (scrollHeight h - clientHeight)).
Proof.
  unfold executeCommand.
  destruct (cmd =? ""); [reflexivity|].
  destruct (cmd =? "clear"); reflexivity.
Qed.

Lemma focused_executeCommand (cmd : string) (t : terminal) :
  focused (executeCommand scrollHeight clientHeight cmd t) = focused t.
Proof.
  unfold executeCommand.
  destruct (cmd =? ""); [reflexivity|].
  destruct (cmd =? "clear"); reflexivity.
Qed.

Lemma keydown_enter (t : terminal) :
  keydown scrollHeight clientHeight "Enter" t =
    setValue "" (executeCommand scrollHeight clientHeight (normalize (value t)) t).
Proof. reflexivity. Qed.

Lemma keydown_other_key (key : string) (t : terminal) :
  key <> "Enter" -> keydown scrollHeight clientHeight key t = t.
Proof.
  intros H. unfold keydown.
  apply String.eqb_neq in H. now rewrite H.
Qed.

Lemma execute_unfold (raw : string) (t : terminal) :
  execute scrollHeight clientHeight raw t =
    setValue "" (executeCommand scrollHeight clientHeight (normalize raw) (setValue raw t)).
Proof. reflexivity. Qed.

Lemma history_execute (raw : string) (t : terminal) :
  history (execute scrollHeight clientHeight raw t) =
    if normalize raw =? "" then history t ++ [historyLine (normalize raw)]
    else if normalize raw =? "clear" then []
    else history t ++ [historyLine (normalize raw); output (normalize raw)].
Proof.
  rewrite execute_unfold. simpl. now rewrite history_executeCommand.
Qed.

Lemma scrollTop_execute (raw : string) (t : terminal) :
  normalize raw = "" ->
  scrollTop (execute scrollHeight clientHeight raw t) = scrollTop t.
Proof.
  intros E. rewrite execute_unfold. simpl.
  now rewrite scrollTop_executeCommand, E.
Qed.

(** What a submission does depends on the typed text through its
    normalised form only. *)
Lemma execute_normalize (a b : string) (t : terminal) :
  normalize a = normalize b ->
  execute scrollHeight clientHeight a t = execute scrollHeight clientHeight b t.
Proof.
  intros E. rewrite !execute_unfold, E.
  unfold executeCommand.
  destruct (normalize b =? ""); [reflexivity|].
  destruct (normalize b =? "clear"); reflexivity.
Qed.

Lemma execute_as_command (raw : string) (t : terminal) :
  execute scrollHeight clientHeight raw t =
    setValue "" (executeCommand scrollHeight clientHeight (normalize raw) t).
Proof.
  rewrite execute_unfold. unfold executeCommand.
  destruct (normalize raw =? ""); [reflexivity|].
  destruct (normalize raw =? "clear"); reflexivity.
Qed.

(** A text over the wider code units whose normalised form is [cmd] does
    what [cmd] does. *)
Lemma executeU_normalized (raw : JS.ustring) (cmd : string) (t : terminal) :
  normalizeU raw = JS.widen cmd -> normalize cmd = cmd ->
  executeU scrollHeight clientHeight raw t =
    Some (execute scrollHeight clientHeight cmd t).
Proof.
  intros H N. unfold executeU.
  now rewrite H, narrow_widen, execute_as_command, N.
Qed.

(** On the strings below U+0100 [executeU] is [execute]. *)
Lemma executeU_widen (raw : string) (t : terminal) :
  executeU scrollHeight clientHeight (JS.widen raw) t =
    Some (execute scrollHeight clientHeight raw t).
Proof.
  unfold executeU.
  now rewrite normalizeU_widen, narrow_widen, execute_as_command.
Qed.

Lemma run_nil (t : terminal) : run scrollHeight clientHeight [] t = t.
Proof. reflexivity. Qed.

Lemma run_cons (raw : string) (inputs : list string) (t : terminal) :
  run scrollHeight clientHeight (raw :: inputs) t =
    run scrollHeight clientHeight inputs (execute scrollHeight clientHeight raw t).
Proof. reflexivity. Qed.

End TerminalSteps.

Section TerminalFacts.

Variable scrollHeight : list element -> Z.
Variable clientHeight : Z.

Local Open Scope list_scope.

Local Abbreviation executeCommand := (executeCommand scrollHeight clientHeight).
Local Abbreviation keydown := (keydown scrollHeight clientHeight).
Local Abbreviation execute := (execute scrollHeight clientHeight).
Local Abbreviation executeU := (executeU scrollHeight clientHeight).
Local Abbreviation run := (run scrollHeight clientHeight).

Lemma followsEcho_execute (raw : string) (t : terminal) :
  followsEcho (history t) -> followsEcho (history (execute raw t)).
Proof.
  intros F. rewrite history_execute.
  destruct (normalize raw =? "").
  - apply followsEcho_app; [assumption | apply followsEcho_line].
  - destruct (normalize raw =? "clear").
    + apply followsEcho_nil.
    + apply followsEcho_app; [assumption | apply followsEcho_line_output].
Qed.

Lemma followsEcho_run (inputs : list string) (t : terminal) :
  followsEcho (history t) -> followsEcho (history (run inputs t)).
Proof.
  revert t; induction inputs as [|raw inputs IH]; intros t F; [exact F|].
  rewrite run_cons. apply IH. now apply followsEcho_execute.
Qed.

(** C1: for every key [c] of the command table, submitting [c] appends to
    the transcript exactly two entries: an echo entry whose markup contains
    [c], and directly after it one output entry whose text is the value of
    the table at [c]. *)
Theorem C1_supported_command (c : string) (t : terminal) :
  In c (JS.keys commands) ->
  exists v,
    JS.getOwnProperty commands c = Some v /\
    history (execute c t) =
      history t ++ [historyLine c; mkElement "terminal-output" "12px" (TextContent v)] /\
    isEcho (historyLine c) = true /\
    JS.includes c (contentString (historyLine c)) = true /\
    isOutput (mkElement "terminal-output" "12px" (TextContent v)) = true /\
    isOutput (historyLine c) = false.
Proof.
  intros H. simpl in H.
  repeat (destruct H as [<-|H];
          [eexists; split; [reflexivity|];
           split; [rewrite history_execute; reflexivity|];
           repeat split; apply (includes_intro _ promptMarkup "</span>") |]).
  contradiction.
Qed.

(** C2, amended: for every typed text [s] whose normalised form is not
    empty, is not "clear", is not a key of the command table and is not a
    property name inherited from Object.prototype, submitting [s] appends an
    echo entry and exactly one output entry; the text of the output entry is
    "Command not found: ", the normalised [s], and
    ". Type 'help' for available commands."; it contains the normalised [s]
    and the word "help". *)
Theorem C2_unknown_command (s : string) (t : terminal) :
  normalize s <> "" ->
  normalize s <> "clear" ->
  ~ In (normalize s) (JS.keys commands) ->
  normalize s <> "constructor" ->
  normalize s <> "__proto__" ->
  history (execute s t) =
    history t ++ [historyLine (normalize s);
                  mkElement "terminal-output" "12px"
                    (TextContent ("Command not found: " ++ normalize s ++
                                  ". Type 'help' for available commands.")%string)] /\
  JS.includes (normalize s) (notFound (normalize s)) = true /\
  JS.includes "help" (notFound (normalize s)) = true.
Proof.
  intros He Hc Hk Hn Hp. split; [|apply notFound_includes].
  rewrite history_execute.
  apply String.eqb_neq in He, Hc. rewrite He, Hc.
  unfold output. now rewrite outputText_notFound.
Qed.

(** C3: whatever the transcript holds, submitting "clear" leaves it empty:
    its length is zero and it holds no output entry. *)
Theorem C3_clear_resets (t : terminal) :
  history (execute "clear" t) = [] /\
  List.length (history (execute "clear" t)) = 0.
Proof. rewrite history_execute. now split. Qed.

(** C4, amended: for every typed text whose normalised form is empty,
    submitting it appends exactly one entry, an echo entry with empty
    command text, and no output entry; the scroll offset stays. *)
Theorem C4_empty_input (raw : string) (t : terminal) :
  normalize raw = "" ->
  history (execute raw t) = history t ++ [historyLine ""] /\
  isEcho (historyLine "") = true /\
  isOutput (historyLine "") = false /\
  scrollTop (execute raw t) = scrollTop t.
Proof.
  intros E. rewrite history_execute, scrollTop_execute, E by assumption.
  now repeat split.
Qed.

(** C5, amended: for every [s] over the code units below U+0100,
    submitting [s] has the effect of submitting its normalised form, and so
    has submitting [s] between white space, and so has submitting the upper
    case of [s] when [s] has neither a sharp s nor a micro sign; "WHOAMI",
    the upper case of "whoami", does what "whoami" does. *)
Theorem C5_case_and_edges (s pre post : string) (t : terminal) :
  execute s t = execute (normalize s) t /\
  (JS.allWhiteSpace pre = true -> JS.allWhiteSpace post = true ->
   execute (pre ++ s ++ post)%string t = execute (normalize s) t) /\
  (noSharpS s = true -> noMicro s = true ->
   executeU (JS.toUpperCase s) t = Some (execute (normalize s) t)) /\
  JS.toUpperCase "whoami" = JS.widen "WHOAMI" /\
  execute "WHOAMI" t = execute "whoami" t.
Proof.
  split; [|split; [|split; [|split]]].
  - apply execute_normalize. now rewrite normalize_idem.
  - intros Hpre Hpost. apply execute_normalize. rewrite normalize_idem.
    now apply normalize_padded.
  - intros Hs Hm. apply executeU_normalized.
    + now apply normalizeU_toUpperCase.
    + apply normalize_idem.
  - reflexivity.
  - now apply execute_normalize.
Qed.

(** C6: in every transcript reached from an empty one by submissions, every
    output entry stands directly after an echo entry, and an echo entry is
    followed by at most one output entry; a submission either resets the
    transcript to empty (the clear command) or extends it at its end. *)
Theorem C6_transcript_shape (inputs : list string) (t : terminal) :
  history t = [] ->
  followsEcho (history (run inputs t)) /\
  atMostOneOutput (history (run inputs t)) /\
  (forall raw t',
     (normalize raw = "clear" /\ history (execute raw t') = []) \/
     (exists suffix, history (execute raw t') = history t' ++ suffix)).
Proof.
  intros E.
  assert (F : followsEcho (history (run inputs t))).
  { apply followsEcho_run. rewrite E. apply followsEcho_nil. }
  split; [exact F|]. split; [now apply followsEcho_atMostOneOutput|].
  intros raw t'. rewrite history_execute.
  destruct (normalize raw =? "") eqn:E1; [right; eauto|].
  destruct (normalize raw =? "clear") eqn:E2; [left|right; eauto].
  apply String.eqb_eq in E2. now split.
Qed.

(** C7: from an empty transcript, submitting "help", "ls", "clear" and
    "whoami" in this order leaves exactly two entries: the echo entry of
    "whoami", a div of class terminal-history-line whose markup is the prompt
    spans followed by a span with "whoami" and whose text is
    "aryan@dev:~$ whoami", and the output entry with the table's text for
    "whoami". *)
Theorem C7_scenario (t : terminal) :
  history t = [] ->
  let q := String "034"%char "" in
  exists e w,
    JS.getOwnProperty commands "whoami" = Some w /\
    w = "Aryan Yadav - CS Student, Web Developer, and Cybersecurity Enthusiast."%string /\
    history (run ["help"; "ls"; "clear"; "whoami"]%string t) =
      [e; mkElement "terminal-output" "12px" (TextContent w)] /\
    isEcho e = true /\
    isOutput e = false /\
    inner e =
      InnerHTML ("<span class=" ++ q ++ "terminal-prompt" ++ q ++ ">aryan@dev</span>" ++
                 "<span class=" ++ q ++ "terminal-text" ++ q ++ ">:~$</span> " ++
                 "<span>whoami</span>")%string /\
    textOf Data (contentString e) = Some "aryan@dev:~$ whoami"%string /\
    isOutput (mkElement "terminal-output" "12px" (TextContent w)) = true.
Proof.
  intros E q. exists (historyLine "whoami"). eexists.
  split; [reflexivity|]. split; [reflexivity|].
  split; [|now repeat split].
  rewrite !run_cons, run_nil, (history_execute _ _ "whoami").
  change (normalize "whoami" =? "")%string with false.
  change (normalize "whoami" =? "clear")%string with false.
  cbv iota.
  now rewrite (history_execute _ _ "clear").
Qed.

(** C8, amended: for every submitted text whose normalised form is not
    "clear" and holds none of the characters that innerHTML takes as markup,
    the echo entry appended to the transcript is a div of class
    terminal-history-line whose markup is the prompt spans followed by a
    span with the normalised (lower-cased, trimmed) text, so that its text
    is the prompt "aryan@dev:~$", a space and the normalised text; it is
    followed by at most one output entry.  [executeCommand] itself echoes in
    this way the string it receives. *)
Theorem C8_echo_normalised (raw cmd : string) (t : terminal) :
  normalize raw <> "clear"%string ->
  plainText (normalize raw) = true ->
  cmd <> "clear"%string ->
  plainText cmd = true ->
  let q := String "034"%char "" in
  (exists e rest,
     history (execute raw t) = history t ++ e :: rest /\
     isEcho e = true /\
     inner e =
       InnerHTML ("<span class=" ++ q ++ "terminal-prompt" ++ q ++ ">aryan@dev</span>" ++
                  "<span class=" ++ q ++ "terminal-text" ++ q ++ ">:~$</span> " ++
                  "<span>" ++ normalize raw ++ "</span>")%string /\
     textOf Data (contentString e) = Some ("aryan@dev:~$ " ++ normalize raw)%string /\
     Forall (fun o => isOutput o = true) rest /\ List.length rest <= 1) /\
  (exists e rest,
     history (executeCommand cmd t) = history t ++ e :: rest /\
     isEcho e = true /\
     textOf Data (contentString e) = Some ("aryan@dev:~$ " ++ cmd)%string).
Proof.
  intros Hr Pr Hc Pc q. apply String.eqb_neq in Hr, Hc.
  rewrite history_execute, history_executeCommand, Hr, Hc.
  assert (M : forall x,
             inner (historyLine x) =
               InnerHTML ("<span class=" ++ q ++ "terminal-prompt" ++ q ++ ">aryan@dev</span>" ++
                          "<span class=" ++ q ++ "terminal-text" ++ q ++ ">:~$</span> " ++
                          "<span>" ++ x ++ "</span>")%string).
  { intros x. subst q. unfold historyLine, promptMarkup, dq. reflexivity. }
  split.
  - exists (historyLine (normalize raw)).
    destruct (normalize raw =? "")%string; eexists;
      (split; [reflexivity|]); (split; [reflexivity|]);
      (split; [apply M|]); (split; [now apply textOf_historyLine|]);
      split; simpl; auto.
  - exists (historyLine cmd).
    destruct (cmd =? "")%string; eexists;
      (split; [reflexivity|]); (split; [reflexivity|]);
      now apply textOf_historyLine.
Qed.

(** C9, amended: after Enter the input field is empty, whatever the command
    was, and the focus is as before; besides the transcript and the input
    field the scroll offset of the terminal body is written, when an output
    entry has been appended: it is then the end of the scrollable range. *)
Theorem C9_enter_frame (t : terminal) :
  value (keydown "Enter" t) = ""%string /\
  focused (keydown "Enter" t) = focused t /\
  scrollTop (keydown "Enter" t) =
    if ((normalize (value t) =? "") || (normalize (value t) =? "clear"))%bool
    then scrollTop t
    else Z.max 0 (Z.min (scrollHeight (history (keydown "Enter" t)))
                        (scrollHeight (history (keydown "Enter" t)) - clientHeight)).
Proof.
  rewrite keydown_enter. simpl.
  rewrite focused_executeCommand, scrollTop_executeCommand.
  now repeat split.
Qed.

End TerminalFacts.

(** C10: the help text is "Available commands: " followed by the names of
    [helpNames] separated by ", ", and these names are the keys of the
    command table together with "clear". *)
Theorem C10_help_lists_vocabulary :
  JS.getOwnProperty commands "help" =
    Some ("Available commands: " ++ String.concat ", " helpNames) /\
  forall n, In n helpNames <-> n = "clear" \/ In n (JS.keys commands).
Proof.
  split; [reflexivity|].
  intros n. change helpNames with
    ["help"; "clear"; "whoami"; "ls"; "projects"; "skills"; "contact"; "social"].
  change (JS.keys commands) with
    ["help"; "whoami"; "ls"; "projects"; "skills"; "contact"; "social"].
  simpl. intuition congruence.
Qed.

(** ** Concrete runs on the sample page *)

Ltac by_evaluation := intro; vm_compute in *; intuition discriminate.

(** Property names inherited from Object.prototype are found by the lookup
    [commands[cmd]] although they are no commands: the output entry shows
    the inherited value instead of the "Command not found" text. *)
Example inherited_names_are_found :
  history (execute sampleScrollHeight sampleClientHeight "constructor" emptyTerminal) =
    [historyLine "constructor";
     mkElement "terminal-output" "12px" (TextContent "function Object() { [native code] }")] /\
  history (execute sampleScrollHeight sampleClientHeight "__proto__" emptyTerminal) =
    [historyLine "__proto__";
     mkElement "terminal-output" "12px" (TextContent "[object Object]")].
Proof. split; reflexivity. Qed.

Lemma C1_supported_command_witness :
  In "ls" (JS.keys commands) /\
  exists v,
    JS.getOwnProperty commands "ls" = Some v /\
    history (execute sampleScrollHeight sampleClientHeight "ls" emptyTerminal) =
      (history emptyTerminal ++
         [historyLine "ls"; mkElement "terminal-output" "12px" (TextContent v)])%list /\
    isEcho (historyLine "ls") = true /\
    JS.includes "ls" (contentString (historyLine "ls")) = true /\
    isOutput (mkElement "terminal-output" "12px" (TextContent v)) = true /\
    isOutput (historyLine "ls") = false.
Proof.
  assert (H : In "ls" (JS.keys commands)) by (simpl; tauto).
  split; [exact H|].
  exact (C1_supported_command sampleScrollHeight sampleClientHeight "ls" emptyTerminal H).
Defined.

(** The claim C2 fails at "FOO": it is no key of the table, is not "clear"
    and is not empty after trimming, yet the output entry, whose text holds
    the normalised "foo", does not contain "FOO". *)
Lemma C2_counterexample :
  ~ In "FOO" (JS.keys commands) /\ "FOO" <> "clear" /\ JS.trim "FOO" <> "" /\
  history (execute sampleScrollHeight sampleClientHeight "FOO" emptyTerminal) =
    [historyLine "foo";
     mkElement "terminal-output" "12px"
       (TextContent "Command not found: foo. Type 'help' for available commands.")] /\
  JS.includes "FOO" "Command not found: foo. Type 'help' for available commands." = false.
Proof.
  split; [by_evaluation|]. split; [discriminate|]. split; [by_evaluation|].
  split; reflexivity.
Qed.

Lemma C2_unknown_command_witness :
  normalize " Foo " <> "" /\
  normalize " Foo " <> "clear" /\
  ~ In (normalize " Foo ") (JS.keys commands) /\
  normalize " Foo " <> "constructor" /\
  normalize " Foo " <> "__proto__" /\
  history (execute sampleScrollHeight sampleClientHeight " Foo " emptyTerminal) =
    (history emptyTerminal ++
       [historyLine (normalize " Foo ");
        mkElement "terminal-output" "12px"
          (TextContent ("Command not found: " ++ normalize " Foo " ++
                        ". Type 'help' for available commands."))])%list /\
  JS.includes (normalize " Foo ") (notFound (normalize " Foo ")) = true /\
  JS.includes "help" (notFound (normalize " Foo ")) = true.
Proof.
  assert (H1 : normalize " Foo " <> "") by by_evaluation.
  assert (H2 : normalize " Foo " <> "clear") by by_evaluation.
  assert (H3 : ~ In (normalize " Foo ") (JS.keys commands)) by by_evaluation.
  assert (H4 : normalize " Foo " <> "constructor") by by_evaluation.
  assert (H5 : normalize " Foo " <> "__proto__") by by_evaluation.
  repeat (split; [assumption|]).
  exact (C2_unknown_command sampleScrollHeight sampleClientHeight " Foo " emptyTerminal
           H1 H2 H3 H4 H5).
Defined.

(** The claim C4 fails at "" and at "   ": an echo entry is appended. *)
Lemma C4_counterexample :
  history (execute sampleScrollHeight sampleClientHeight "" emptyTerminal) =
    [historyLine ""] /\
  history (execute sampleScrollHeight sampleClientHeight "   " emptyTerminal) =
    [historyLine ""] /\
  isEcho (historyLine "") = true /\
  history (execute sampleScrollHeight sampleClientHeight "" emptyTerminal) <>
    history emptyTerminal.
Proof. repeat split. discriminate. Qed.

Lemma C4_empty_input_witness :
  normalize "   " = "" /\
  history (execute sampleScrollHeight sampleClientHeight "   " emptyTerminal) =
    (history emptyTerminal ++ [historyLine ""])%list /\
  isEcho (historyLine "") = true /\
  isOutput (historyLine "") = false /\
  scrollTop (execute sampleScrollHeight sampleClientHeight "   " emptyTerminal) =
    scrollTop emptyTerminal.
Proof.
  split; [reflexivity|].
  exact (C4_empty_input sampleScrollHeight sampleClientHeight "   " emptyTerminal eq_refl).
Defined.

(** The claim C5 fails at sharp s: its upper case is "SS", which normalises
    to "ss", and the two output entries differ.  It fails at the micro sign
    as well: its upper case is U+039C, which normalises to U+03BC, not to the
    micro sign. *)
Lemma C5_counterexample :
  JS.toUpperCase sharpS = [JS.Latin1 "S"; JS.Latin1 "S"] /\
  normalize sharpS = sharpS /\
  option_map history
    (executeU sampleScrollHeight sampleClientHeight (JS.toUpperCase sharpS) emptyTerminal) =
    Some [historyLine "ss";
          mkElement "terminal-output" "12px"
            (TextContent "Command not found: ss. Type 'help' for available commands.")] /\
  history (execute sampleScrollHeight sampleClientHeight (normalize sharpS) emptyTerminal) =
    [historyLine sharpS;
     mkElement "terminal-output" "12px"
       (TextContent ("Command not found: " ++ sharpS ++
                     ". Type 'help' for available commands."))] /\
  "Command not found: ss. Type 'help' for available commands." <>
    "Command not found: " ++ sharpS ++ ". Type 'help' for available commands." /\
  JS.toUpperCase micro = [JS.U039C] /\
  normalizeU (JS.toUpperCase micro) = [JS.U03BC] /\
  normalizeU (JS.toUpperCase micro) <> JS.widen (normalize micro).
Proof. repeat split; by_evaluation. Qed.

Lemma C5_case_and_edges_witness :
  execute sampleScrollHeight sampleClientHeight "whoami" emptyTerminal =
    execute sampleScrollHeight sampleClientHeight (normalize "whoami") emptyTerminal /\
  execute sampleScrollHeight sampleClientHeight ("  " ++ "whoami" ++ " ") emptyTerminal =
    execute sampleScrollHeight sampleClientHeight (normalize "whoami") emptyTerminal /\
  executeU sampleScrollHeight sampleClientHeight (JS.toUpperCase "whoami") emptyTerminal =
    Some (execute sampleScrollHeight sampleClientHeight (normalize "whoami") emptyTerminal) /\
  JS.toUpperCase "whoami" = JS.widen "WHOAMI" /\
  execute sampleScrollHeight sampleClientHeight "WHOAMI" emptyTerminal =
    execute sampleScrollHeight sampleClientHeight "whoami" emptyTerminal.
Proof.
  destruct (C5_case_and_edges sampleScrollHeight sampleClientHeight
              "whoami" "  " " " emptyTerminal) as (A & B & C & D & E).
  split; [exact A|]. split; [exact (B eq_refl eq_refl)|].
  split; [exact (C eq_refl eq_refl)|]. split; [exact D | exact E].
Defined.

Lemma C6_transcript_shape_witness :
  history emptyTerminal = [] /\
  followsEcho (history (run sampleScrollHeight sampleClientHeight
                          ["help"; ""; "clear"; "FOO"] emptyTerminal)) /\
  atMostOneOutput (history (run sampleScrollHeight sampleClientHeight
                              ["help"; ""; "clear"; "FOO"] emptyTerminal)) /\
  (forall raw t',
     (normalize raw = "clear" /\
      history (execute sampleScrollHeight sampleClientHeight raw t') = []) \/
     (exists suffix,
        history (execute sampleScrollHeight sampleClientHeight raw t') =
          (history t' ++ suffix)%list)).
Proof.
  split; [reflexivity|].
  exact (C6_transcript_shape sampleScrollHeight sampleClientHeight
           ["help"; ""; "clear"; "FOO"] emptyTerminal eq_refl).
Defined.

Lemma C7_scenario_witness :
  history emptyTerminal = [] /\
  exists e w,
    JS.getOwnProperty commands "whoami" = Some w /\
    w = "Aryan Yadav - CS Student, Web Developer, and Cybersecurity Enthusiast." /\
    history (run sampleScrollHeight sampleClientHeight
               ["help"; "ls"; "clear"; "whoami"] emptyTerminal) =
      [e; mkElement "terminal-output" "12px" (TextContent w)] /\
    isEcho e = true /\
    isOutput e = false /\
    inner e =
      InnerHTML ("<span class=" ++ String "034"%char "" ++ "terminal-prompt" ++
                 String "034"%char "" ++ ">aryan@dev</span>" ++
                 "<span class=" ++ String "034"%char "" ++ "terminal-text" ++
                 String "034"%char "" ++ ">:~$</span> " ++
                 "<span>whoami</span>") /\
    textOf Data (contentString e) = Some "aryan@dev:~$ whoami" /\
    isOutput (mkElement "terminal-output" "12px" (TextContent w)) = true.
Proof.
  split; [reflexivity|].
  exact (C7_scenario sampleScrollHeight sampleClientHeight emptyTerminal eq_refl).
Defined.

(** The claim C8 fails at "WHOAMI": the echo entry holds "whoami", not the
    text as typed; its text is "aryan@dev:~$ whoami". *)
Lemma C8_counterexample :
  history (execute sampleScrollHeight sampleClientHeight "WHOAMI" emptyTerminal) =
    [historyLine "whoami"; output "whoami"] /\
  historyLine "whoami" <> historyLine "WHOAMI" /\
  JS.includes "WHOAMI" (contentString (historyLine "whoami")) = false /\
  textOf Data (contentString (historyLine "whoami")) = Some "aryan@dev:~$ whoami".
Proof. repeat split. by_evaluation. Qed.

Lemma C8_echo_normalised_witness :
  normalize " WhoAmI " <> "clear" /\
  plainText (normalize " WhoAmI ") = true /\
  "LS" <> "clear" /\
  plainText "LS" = true /\
  (exists e rest,
     history (execute sampleScrollHeight sampleClientHeight " WhoAmI " emptyTerminal) =
       (history emptyTerminal ++ e :: rest)%list /\
     isEcho e = true /\
     inner e =
       InnerHTML ("<span class=" ++ String "034"%char "" ++ "terminal-prompt" ++
                  String "034"%char "" ++ ">aryan@dev</span>" ++
                  "<span class=" ++ String "034"%char "" ++ "terminal-text" ++
                  String "034"%char "" ++ ">:~$</span> " ++
                  "<span>" ++ normalize " WhoAmI " ++ "</span>") /\
     textOf Data (contentString e) = Some ("aryan@dev:~$ " ++ normalize " WhoAmI ") /\
     Forall (fun o => isOutput o = true) rest /\ List.length rest <= 1) /\
  (exists e rest,
     history (executeCommand sampleScrollHeight sampleClientHeight "LS" emptyTerminal) =
       (history emptyTerminal ++ e :: rest)%list /\
     isEcho e = true /\
     textOf Data (contentString e) = Some ("aryan@dev:~$ " ++ "LS")).
Proof.
  assert (H1 : normalize " WhoAmI " <> "clear") by by_evaluation.
  assert (H2 : "LS" <> "clear") by discriminate.
  split; [exact H1|]. split; [reflexivity|]. split; [exact H2|]. split; [reflexivity|].
  exact (C8_echo_normalised sampleScrollHeight sampleClientHeight
           " WhoAmI " "LS" emptyTerminal H1 eq_refl H2 eq_refl).
Defined.

(** The claim C9 fails at "help": the scroll offset of the terminal body
    moves from 0 to 10, the end of the 40 pixels of content in a box of 30. *)
Lemma C9_counterexample :
  scrollTop (setValue "help" emptyTerminal) = 0%Z /\
  scrollTop (keydown sampleScrollHeight sampleClientHeight "Enter"
               (setValue "help" emptyTerminal)) = 10%Z.
Proof. split; reflexivity. Qed.

(** ** Sessions of the terminal *)

Section TerminalRuns.

Variable scrollHeight : list element -> Z.
Variable clientHeight : Z.

Local Open Scope list_scope.

Local Abbreviation execute := (execute scrollHeight clientHeight).
Local Abbreviation run := (run scrollHeight clientHeight).

Lemma run_app (xs ys : list string) (t : terminal) :
  run (xs ++ ys) t = run ys (run xs t).
Proof. apply fold_left_app. Qed.

(** The transcript after a session depends on the state before it through
    the transcript only. *)
Lemma history_run_ext (inputs : list string) (t1 t2 : terminal) :
  history t1 = history t2 -> history (run inputs t1) = history (run inputs t2).
Proof.
  revert t1 t2; induction inputs as [|raw inputs IH]; intros t1 t2 E; [exact E|].
  rewrite !run_cons. apply IH. now rewrite !history_execute, E.
Qed.

Lemma history_execute_block (raw : string) (t : terminal) :
  normalize raw <> "clear" ->
  history (execute raw t) = history t ++ block (normalize raw).
Proof.
  intros H. apply String.eqb_neq in H.
  rewrite history_execute, H. unfold block.
  now destruct (normalize raw =? "").
Qed.

Lemma run_blocks (inputs acc : list string) (t : terminal) :
  history t = flat_map block acc ->
  history (run inputs t) = flat_map block (sinceClear acc (map normalize inputs)).
Proof.
  revert acc t; induction inputs as [|raw inputs IH]; intros acc t E; [exact E|].
  rewrite run_cons. simpl.
  destruct (normalize raw =? "clear") eqn:C; apply IH.
  - apply String.eqb_eq in C. now rewrite history_execute, C.
  - apply String.eqb_neq in C.
    rewrite history_execute_block, flat_map_app, E by assumption.
    simpl. now rewrite app_nil_r.
Qed.

(** X3: the transcript of a session that starts on an empty transcript is made
    of the blocks of the texts submitted since the last "clear", in order:
    for each one its echo entry and, unless it is empty, the output entry of
    the same normalised text. *)
Theorem run_closed_form (inputs : list string) (t : terminal) :
  history t = [] ->
  history (run inputs t) = flat_map block (sinceClear [] (map normalize inputs)).
Proof. intros E. now apply run_blocks. Qed.

(** X4: once a text that normalises to "clear" has been submitted, what came
    before it has no influence on the transcript: the session continues as
    from an empty transcript. *)
Theorem clear_forgets (pre post : list string) (raw : string) (t t0 : terminal) :
  normalize raw = "clear" ->
  history t0 = [] ->
  history (run (pre ++ raw :: post) t) = history (run post t0).
Proof.
  intros C E. rewrite run_app, run_cons.
  apply history_run_ext. now rewrite history_execute, C, E.
Qed.

End TerminalRuns.

Lemma run_closed_form_witness :
  history emptyTerminal = [] /\
  history (run sampleScrollHeight sampleClientHeight ["LS"; " clear "; ""; "Help"] emptyTerminal) =
    flat_map block (sinceClear [] (map normalize ["LS"; " clear "; ""; "Help"])).
Proof.
  split; [reflexivity|].
  exact (run_closed_form sampleScrollHeight sampleClientHeight
           ["LS"; " clear "; ""; "Help"] emptyTerminal eq_refl).
Defined.

Lemma clear_forgets_witness :
  normalize " CLEAR" = "clear" /\
  history emptyTerminal = [] /\
  history (run sampleScrollHeight sampleClientHeight
             (["ls"; "foo"] ++ " CLEAR" :: ["whoami"])%list
             (execute sampleScrollHeight sampleClientHeight "help" emptyTerminal)) =
    history (run sampleScrollHeight sampleClientHeight ["whoami"] emptyTerminal).
Proof.
  split; [reflexivity|]. split; [reflexivity|].
  exact (clear_forgets sampleScrollHeight sampleClientHeight ["ls"; "foo"] ["whoami"]
           " CLEAR" (execute sampleScrollHeight sampleClientHeight "help" emptyTerminal)
           emptyTerminal eq_refl eq_refl).
Defined.

(** X2: the text of an output entry is never empty, whatever string
    [executeCommand] receives. *)
Theorem outputText_nonempty (cmd : string) : outputText cmd <> "".
Proof.
  unfold outputText.
  destruct (JS.get commands cmd) as [|v| |name] eqn:G; simpl; try discriminate.
  destruct v; simpl; discriminate.
Qed.

Lemma value_not_notFound (cmd v : string) :
  In v (map snd commands) -> v <> notFound cmd.
Proof.
  intros H. simpl in H.
  repeat (destruct H as [<-|H]; [discriminate|]). contradiction.
Qed.

Lemma getOwnProperty_value (o : JS.object) (k v : string) :
  JS.getOwnProperty o k = Some v -> In v (map snd o).
Proof.
  induction o as [|[k' v'] o IH]; simpl; intros H; [discriminate|].
  destruct (k' =? k); [injection H as <-; now left | right; now apply IH].
Qed.

Lemma outputText_notFound_iff (s : string) :
  outputText (normalize s) = notFound (normalize s) <->
  ~ In (normalize s) (JS.keys commands) /\
  normalize s <> "constructor" /\ normalize s <> "__proto__".
Proof.
  split.
  - intros H. unfold outputText, JS.get in H.
    destruct (JS.getOwnProperty commands (normalize s)) as [v|] eqn:G.
    + exfalso. pose proof (getOwnProperty_value _ _ _ G) as Hv.
      simpl in H. destruct (v =? "") eqn:V; simpl in H.
      * apply String.eqb_eq in V. subst v. simpl in Hv. intuition discriminate.
      * now apply (value_not_notFound (normalize s)) in Hv.
    + split.
      * intros K. destruct (normalize s =? "__proto__") eqn:P.
        -- apply String.eqb_eq in P. rewrite P in K. simpl in K.
           intuition discriminate.
        -- clear H. simpl in K.
           repeat (destruct K as [K|K];
                   [rewrite <- K in G; vm_compute in G; discriminate|]).
           contradiction.
      * split; intros E; rewrite E in H; vm_compute in H; discriminate.
  - intros (K & C & P). now apply outputText_notFound.
Qed.

Lemma app_two_inv (h : list element) (a b c d : element) :
  (h ++ [a; b] = h ++ [c; d])%list -> b = d.
Proof. intros H. apply app_inv_head in H. congruence. Qed.

(** X1: submitting [s] appends, after the echo entry, the output entry with
    the "Command not found" text exactly when the normalised [s] is not
    empty, is not "clear", is no key of the command table and is neither
    "constructor" nor "__proto__". *)
Theorem notFound_iff (scrollHeight : list element -> Z) (clientHeight : Z)
    (s : string) (t : terminal) :
  history (execute scrollHeight clientHeight s t) =
    (history t ++
       [historyLine (normalize s);
        mkElement "terminal-output" "12px"
          (TextContent ("Command not found: " ++ normalize s ++
                        ". Type 'help' for available commands."))])%list <->
  normalize s <> "" /\ normalize s <> "clear" /\
  ~ In (normalize s) (JS.keys commands) /\
  normalize s <> "constructor" /\ normalize s <> "__proto__".
Proof.
  rewrite history_execute. split.
  - intros H.
    destruct (String.eqb_spec (normalize s) "") as [E|E].
    + exfalso. apply app_inv_head in H. discriminate.
    + split; [exact E|].
      destruct (String.eqb_spec (normalize s) "clear") as [C|C].
      * exfalso. destruct (history t); discriminate.
      * split; [exact C|]. apply outputText_notFound_iff.
        apply app_two_inv in H. unfold output in H. now injection H.
  - intros (E & C & K). apply String.eqb_neq in E, C. rewrite E, C.
    apply outputText_notFound_iff in K. unfold output. now rewrite K.
Qed.

(** ** The contact form: facts *)

Module ContactFormFacts.

Import ContactForm.

Local Open Scope list_scope.

(** *** Token lists *)

Lemma contains_app (c : string) (l1 l2 : list string) :
  contains c (l1 ++ l2) = (contains c l1 || contains c l2)%bool.
Proof. apply existsb_app. Qed.

Lemma contains_add_same (c : string) (l : list string) :
  contains c (add c l) = true.
Proof.
  unfold add. destruct (contains c l) eqn:E; [exact E|].
  rewrite contains_app, E. simpl. now rewrite String.eqb_refl.
Qed.

Lemma contains_add_other (a c : string) (l : list string) :
  a <> c -> contains a (add c l) = contains a l.
Proof.
  intros H. unfold add. destruct (contains c l); [reflexivity|].
  rewrite contains_app. simpl. apply String.eqb_neq in H. rewrite H.
  now rewrite !orb_false_r.
Qed.

Lemma contains_remove_same (c : string) (l : list string) :
  contains c (remove c l) = false.
Proof.
  induction l as [|x l IH]; simpl; [reflexivity|].
  destruct (x =? c) eqn:E; simpl; [exact IH|].
  rewrite String.eqb_sym, E. exact IH.
Qed.

Lemma contains_remove_other (a c : string) (l : list string) :
  a <> c -> contains a (remove c l) = contains a l.
Proof.
  intros H. induction l as [|x l IH]; simpl; [reflexivity|].
  destruct (x =? c) eqn:E; simpl.
  - apply String.eqb_eq in E. subst x.
    apply String.eqb_neq in H. now rewrite H.
  - fold (contains a (remove c l)). fold (contains a l). now rewrite IH.
Qed.

Lemma remove_absent (c : string) (l : list string) :
  contains c l = false -> remove c l = l.
Proof.
  induction l as [|x l IH]; simpl; intros H; [reflexivity|].
  apply orb_false_iff in H as [H1 H2].
  rewrite String.eqb_sym, H1. simpl. f_equal. now apply IH.
Qed.

Lemma add_present (c : string) (l : list string) :
  contains c l = true -> add c l = l.
Proof. intros H. unfold add. now rewrite H. Qed.

Lemma remove_idem (c : string) (l : list string) :
  remove c (remove c l) = remove c l.
Proof. apply remove_absent, contains_remove_same. Qed.

Lemma add_idem (c : string) (l : list string) : add c (add c l) = add c l.
Proof. apply add_present, contains_add_same. Qed.

(** *** The regular expressions *)

Lemma test_nil (s : string) : test [] s = true <-> s = ""%string.
Proof. destruct s; simpl; split; intros H; congruence. Qed.

Lemma test_One (p : ascii -> bool) (re : list atom) (s : string) :
  test (One p :: re) s = true <->
  exists c rest, s = String c rest /\ p c = true /\ test re rest = true.
Proof.
  split.
  - destruct s as [|c s]; simpl; intros H; [discriminate|].
    apply andb_true_iff in H as [H1 H2]. now exists c, s.
  - intros (c & rest & -> & H1 & H2). simpl. now rewrite H1, H2.
Qed.

Lemma test_Many (p : ascii -> bool) (re : list atom) (s : string) :
  test (Many p :: re) s = true <->
  exists a rest, s = (a ++ rest)%string /\ a <> ""%string /\
                 every p a = true /\ test re rest = true.
Proof.
  split.
  - induction s as [|c s IH]; simpl; intros H; [discriminate|].
    apply andb_true_iff in H as [Hp H].
    apply orb_true_iff in H as [H|H].
    + destruct (IH H) as (a & rest & -> & Ha & He & Hr).
      exists (String c a), rest. simpl. rewrite Hp, He.
      repeat split; [discriminate | assumption].
    + exists (String c ""), s. simpl. rewrite Hp.
      repeat split; [discriminate | assumption].
  - intros (a & rest & -> & Ha & He & Hr).
    induction a as [|c a IH]; [congruence|].
    simpl in He. apply andb_true_iff in He as [Hp He].
    simpl. rewrite Hp. simpl.
    destruct a as [|d a].
    + simpl. rewrite Hr. apply orb_true_r.
    + change (test (Many p :: re) (String d a ++ rest) = true)
        with (test (Many p :: re) (String d a ++ rest)%string = true) in IH.
      rewrite IH; [reflexivity | discriminate | assumption].
Qed.

Lemma every_append (p : ascii -> bool) (a b : string) :
  every p (a ++ b)%string = (every p a && every p b)%bool.
Proof.
  induction a as [|c a IH]; simpl; [reflexivity|].
  now rewrite IH, andb_assoc.
Qed.

Lemma occurrences_append (c : ascii) (a b : string) :
  occurrences c (a ++ b)%string = occurrences c a + occurrences c b.
Proof. induction a as [|d a IH]; simpl; [reflexivity | rewrite IH; lia]. Qed.

Lemma every_notSpaceNorAt (s : string) :
  every notSpaceNorAt s = true ->
  every (fun c => negb (JS.isWhiteSpace c)) s = true /\
  occurrences "@" s = 0.
Proof.
  induction s as [|c s IH]; simpl; intros H; [now split|].
  apply andb_true_iff in H as [Hc H]. destruct (IH H) as [W O].
  unfold notSpaceNorAt in Hc. apply negb_true_iff, orb_false_iff in Hc as [Hw Ha].
  rewrite Hw, Ha, W, O. now split.
Qed.

Lemma email_parts (v : string) :
  test EMAIL_REGEX v = true ->
  exists a b c,
    v = (a ++ "@" ++ b ++ "." ++ c)%string /\
    a <> ""%string /\ b <> ""%string /\ c <> ""%string /\
    every notSpaceNorAt a = true /\
    every notSpaceNorAt b = true /\
    every notSpaceNorAt c = true.
Proof.
  unfold EMAIL_REGEX. intros H.
  apply test_Many in H as (a & r1 & -> & Ha & Ea & H).
  apply test_One in H as (x & r2 & -> & Hx & H).
  apply Ascii.eqb_eq in Hx. subst x.
  apply test_Many in H as (b & r3 & -> & Hb & Eb & H).
  apply test_One in H as (y & r4 & -> & Hy & H).
  apply Ascii.eqb_eq in Hy. subst y.
  apply test_Many in H as (c & r5 & -> & Hc & Ec & H).
  apply test_nil in H. subst r5. rewrite append_empty_r.
  now exists a, b, c.
Qed.

(** X5: an address is accepted by EMAIL_REGEX exactly when it reads a@b.c with
    a, b and c not empty and free of white space and of "@". *)
Theorem EMAIL_REGEX_shape (v : string) :
  test EMAIL_REGEX v = true <->
  exists a b c,
    v = (a ++ "@" ++ b ++ "." ++ c)%string /\
    a <> ""%string /\ b <> ""%string /\ c <> ""%string /\
    every notSpaceNorAt a = true /\
    every notSpaceNorAt b = true /\
    every notSpaceNorAt c = true.
Proof.
  split; [apply email_parts|]. unfold EMAIL_REGEX.
  intros (a & b & c & -> & Ha & Hb & Hc & Ea & Eb & Ec).
  apply test_Many. exists a, ("@" ++ b ++ "." ++ c)%string.
  repeat split; try assumption.
  apply test_One. exists "@"%char, (b ++ "." ++ c)%string.
  repeat split.
  apply test_Many. exists b, ("." ++ c)%string.
  repeat split; try assumption.
  apply test_One. exists "."%char, c.
  repeat split.
  apply test_Many. exists c, ""%string.
  rewrite append_empty_r. now repeat split.
Qed.

(** X6: an accepted address has no white space, has exactly one "@", and this
    "@" is neither its first nor its last character. *)
Theorem EMAIL_REGEX_one_at (v : string) :
  test EMAIL_REGEX v = true ->
  every (fun c => negb (JS.isWhiteSpace c)) v = true /\
  occurrences "@" v = 1 /\
  JS.startsWith "@" v = false /\
  exists before after, v = (before ++ "@" ++ after)%string /\
                       before <> ""%string /\ after <> ""%string.
Proof.
  intros H. apply email_parts in H
    as (a & b & c & -> & Ha & Hb & Hc & Ea & Eb & Ec).
  apply every_notSpaceNorAt in Ea as [Wa Oa], Eb as [Wb Ob], Ec as [Wc Oc].
  repeat split.
  - rewrite !every_append, Wa, Wb, Wc. reflexivity.
  - rewrite !occurrences_append, Oa, Ob, Oc. reflexivity.
  - destruct a as [|x a]; [congruence|].
    simpl in Oa. destruct (x =? "@")%char eqn:E; [discriminate|].
    simpl append. cbn [JS.startsWith]. now rewrite Ascii.eqb_sym, E.
  - exists a, (b ++ "." ++ c)%string. repeat split; try assumption.
    destruct b; [congruence | discriminate].
Qed.

(** *** validateField *)

Lemma validate_ext (labels : list (string * string)) (a b : element) :
  id a = id b -> name a = name b -> type a = type b ->
  required a = required b -> value a = value b ->
  validate labels a = validate labels b.
Proof.
  intros H1 H2 H3 H4 H5. unfold validate, getLabelText.
  now rewrite H1, H2, H3, H4, H5.
Qed.

Lemma required_message_nonempty (label : string) :
  ((label ++ " is required") =? "")%string = false.
Proof. now destruct label. Qed.

(** The error message is empty exactly when the checks pass. *)
Lemma validate_message (labels : list (string * string)) (input : element) :
  (snd (validate labels input) =? "")%string = fst (validate labels input).
Proof.
  unfold validate.
  repeat match goal with
         | |- context [if ?b then _ else _] => destruct b
         end; simpl; try reflexivity.
  apply required_message_nonempty.
Qed.

Lemma validateField_unfold (labels : list (string * string))
    (input : element) (errorEl : option element) :
  validateField labels input errorEl =
    if fst (validate labels input) then
      (setAriaInvalid (Some "false"%string)
         (setClassList (add "valid" (remove "error" (classList input)))
            (setTouched (Some "true"%string) input)),
       option_map (fun e => setClassList (remove "visible" (classList e))
                              (setTextContent "" e)) errorEl,
       true)
    else
      (setAriaInvalid (Some "true"%string)
         (setClassList (remove "valid" (add "error" (classList input)))
            (setTouched (Some "true"%string) input)),
       option_map (fun e => setClassList (add "visible" (classList e))
                              (setTextContent (snd (validate labels input)) e)) errorEl,
       false).
Proof.
  unfold validateField.
  change (validate labels (setTouched (Some "true"%string) input))
    with (validate labels input).
  destruct (validate labels input) as [[] msg]; reflexivity.
Qed.

Lemma validateField_result (labels : list (string * string))
    (input : element) (errorEl : option element) :
  snd (validateField labels input errorEl) = fst (validate labels input).
Proof.
  rewrite validateField_unfold. now destruct (fst (validate labels input)).
Qed.

Lemma validateField_error (labels : list (string * string))
    (input : element) (errorEl : option element) :
  contains "error" (classList (fst (fst (validateField labels input errorEl)))) =
    negb (fst (validate labels input)) /\
  touched (fst (fst (validateField labels input errorEl))) = Some "true"%string /\
  validate labels (fst (fst (validateField labels input errorEl))) =
    validate labels input.
Proof.
  rewrite validateField_unfold.
  destruct (fst (validate labels input)); simpl.
  - rewrite contains_add_other, contains_remove_same by discriminate.
    now repeat split.
  - rewrite contains_remove_other, contains_add_same by discriminate.
    now repeat split.
Qed.

(** X7: after [validateField] the input carries exactly one of the classes
    "valid" and "error", the one that says what the function returned;
    aria-invalid says the same, the input is marked as touched and its value
    is as before.  The error element, if the page has it, is visible exactly
    when the function returned false, and its text is empty exactly when it
    returned true. *)
Theorem validateField_marks (labels : list (string * string))
    (input : element) (errorEl : option element) :
  let r := validateField labels input errorEl in
  contains "valid" (classList (fst (fst r))) = snd r /\
  contains "error" (classList (fst (fst r))) = negb (snd r) /\
  ariaInvalid (fst (fst r)) = Some (if snd r then "false" else "true")%string /\
  touched (fst (fst r)) = Some "true"%string /\
  value (fst (fst r)) = value input /\
  match errorEl, snd (fst r) with
  | Some _, Some e =>
      contains "visible" (classList e) = negb (snd r) /\
      (textContent e =? "")%string = snd r
  | None, None => True
  | _, _ => False
  end.
Proof.
  intros r. subst r. rewrite validateField_unfold.
  pose proof (validate_message labels input) as M.
  destruct (fst (validate labels input)); simpl.
  - rewrite contains_add_same, contains_add_other, contains_remove_same
      by discriminate.
    repeat split. destruct errorEl as [e|]; simpl; [|exact I].
    now rewrite contains_remove_same.
  - rewrite contains_remove_same, contains_remove_other, contains_add_same
      by discriminate.
    repeat split. destruct errorEl as [e|]; simpl; [|exact I].
    now rewrite contains_add_same.
Qed.

(** X8: validating a field a second time, with nothing changed in between,
    changes nothing and returns the same answer. *)
Theorem validateField_idempotent (labels : list (string * string))
    (input : element) (errorEl : option element) :
  validateField labels
    (fst (fst (validateField labels input errorEl)))
    (snd (fst (validateField labels input errorEl))) =
  validateField labels input errorEl.
Proof.
  rewrite (validateField_unfold labels input errorEl).
  destruct (fst (validate labels input)) eqn:V; simpl fst; simpl snd;
    rewrite validateField_unfold;
    match goal with
    | |- context [validate labels ?x] =>
        rewrite (validate_ext labels x input) by reflexivity
    end; rewrite V; simpl.
  - f_equal. f_equal.
    + unfold setAriaInvalid, setClassList, setTouched; simpl. f_equal.
      rewrite (remove_absent "error");
        [apply add_idem|].
      rewrite contains_add_other by discriminate. apply contains_remove_same.
    + destruct errorEl as [e|]; simpl; [|reflexivity].
      unfold setClassList, setTextContent; simpl. now rewrite remove_idem.
  - f_equal. f_equal.
    + unfold setAriaInvalid, setClassList, setTouched; simpl. f_equal.
      rewrite (add_present "error");
        [apply remove_idem|].
      rewrite contains_remove_other by discriminate. apply contains_add_same.
    + destruct errorEl as [e|]; simpl; [|reflexivity].
      unfold setClassList, setTextContent; simpl. now rewrite add_idem.
Qed.

(** X9: white space around the typed value does not change the verdict of
    [validateField] nor the message it shows. *)
Theorem validateField_padded (labels : list (string * string))
    (input : element) (errorEl : option element) (pre v post : string) :
  JS.allWhiteSpace pre = true -> JS.allWhiteSpace post = true ->
  validate labels (setValue (pre ++ v ++ post) input) =
    validate labels (setValue v input) /\
  snd (validateField labels (setValue (pre ++ v ++ post) input) errorEl) =
    snd (validateField labels (setValue v input) errorEl).
Proof.
  intros Hpre Hpost.
  assert (E : validate labels (setValue (pre ++ v ++ post) input) =
              validate labels (setValue v input)).
  { unfold validate, getLabelText. simpl. now rewrite trim_padded. }
  split; [exact E|]. now rewrite !validateField_result, E.
Qed.

(** X10: the message field, #contact-message, passes exactly when its trimmed
    value has between 10 and 1000 characters, or is empty and the field is
    not required. *)
Theorem message_bounds (labels : list (string * string))
    (input : element) (errorEl : option element) :
  id input = "contact-message"%string ->
  type input <> "email"%string ->
  (snd (validateField labels input errorEl) = true <->
   (required input = false /\ JS.trim (value input) = ""%string) \/
   (10 <= length (JS.trim (value input)) <= 1000)).
Proof.
  intros Hid Hty. rewrite validateField_result.
  apply String.eqb_neq in Hty. unfold validate, MAX_MESSAGE_LENGTH.
  rewrite Hid, Hty. simpl.
  set (v := JS.trim (value input)).
  destruct (String.eqb_spec v "") as [E|E].
  - rewrite E. simpl. destruct (required input); simpl; split; intros H;
      try discriminate; try reflexivity; auto.
    destruct H as [[H _]|H]; [discriminate | lia].
  - assert (L : length v <> 0) by (destruct v; [congruence | discriminate]).
    rewrite andb_false_r. simpl.
    destruct (Nat.ltb_spec 1000 (length v)) as [G|G]; simpl.
    + split; intros H; [discriminate|].
      destruct H as [[_ H]|H]; [contradiction | lia].
    + destruct (Nat.ltb_spec (length v) 10) as [G'|G']; simpl.
      * split; intros H; [discriminate|].
        destruct H as [[_ H]|H]; [contradiction | lia].
      * split; intros _; [right; lia | reflexivity].
Qed.

(** X11: a field of type email other than the message field passes exactly when
    its trimmed value is accepted by EMAIL_REGEX, or is empty and the field
    is not required. *)
Theorem email_field (labels : list (string * string))
    (input : element) (errorEl : option element) :
  type input = "email"%string ->
  id input <> "contact-message"%string ->
  (snd (validateField labels input errorEl) = true <->
   (required input = false /\ JS.trim (value input) = ""%string) \/
   test EMAIL_REGEX (JS.trim (value input)) = true).
Proof.
  intros Hty Hid. rewrite validateField_result.
  apply String.eqb_neq in Hid. unfold validate.
  rewrite Hid, Hty. simpl.
  set (v := JS.trim (value input)).
  destruct (String.eqb_spec v "") as [E|E].
  - rewrite E. simpl. destruct (required input); simpl; split; intros H;
      try discriminate; try reflexivity; auto.
    destruct H as [[H _]|H]; discriminate.
  - rewrite andb_false_r. simpl.
    destruct (test EMAIL_REGEX v); simpl; split; intros H;
      try discriminate; try reflexivity; auto.
    destruct H as [[_ H]|H]; [contradiction | discriminate].
Qed.

(** *** validateForm and the listeners *)

(** X12: [validateForm] validates all three inputs, whatever the verdict on the
    others: each one ends up with the class "error" exactly when its own
    checks fail, and the function returns true exactly when none fails. *)
Theorem validateForm_all_fields (f : form) :
  let r := validateForm f in
  contains "error" (classList (nameInput (fst r))) =
    negb (fst (validate (labels f) (nameInput f))) /\
  contains "error" (classList (emailInput (fst r))) =
    negb (fst (validate (labels f) (emailInput f))) /\
  contains "error" (classList (messageInput (fst r))) =
    negb (fst (validate (labels f) (messageInput f))) /\
  touched (nameInput (fst r)) = Some "true"%string /\
  touched (emailInput (fst r)) = Some "true"%string /\
  touched (messageInput (fst r)) = Some "true"%string /\
  snd r = (fst (validate (labels f) (nameInput f)) &&
           fst (validate (labels f) (emailInput f)) &&
           fst (validate (labels f) (messageInput f)))%bool.
Proof.
  intros r. subst r. unfold validateForm.
  pose proof (validateField_error (labels f) (nameInput f) (nameError f)) as Mn.
  pose proof (validateField_error (labels f) (emailInput f) (emailError f)) as Me.
  pose proof (validateField_error (labels f) (messageInput f) (messageError f)) as Mm.
  pose proof (validateField_result (labels f) (nameInput f) (nameError f)) as Rn.
  pose proof (validateField_result (labels f) (emailInput f) (emailError f)) as Re.
  pose proof (validateField_result (labels f) (messageInput f) (messageError f)) as Rm.
  destruct (validateField (labels f) (nameInput f) (nameError f)) as [[n ne] nv].
  destruct (validateField (labels f) (emailInput f) (emailError f)) as [[e ee] ev].
  destruct (validateField (labels f) (messageInput f) (messageError f)) as [[m me] mv].
  simpl in *. subst nv ev mv.
  destruct Mn as (Mn & Tn & _). destruct Me as (Me & Te & _).
  destruct Mm as (Mm & Tm & _).
  now repeat split.
Qed.

Lemma onInput_error_class (labels : list (string * string))
    (input : element) (errorEl : option element) :
  contains "error" (classList (fst (onInput labels input errorEl))) =
    (contains "error" (classList input) && negb (fst (validate labels input)))%bool.
Proof.
  unfold onInput. destruct (contains "error" (classList input)) eqn:C; simpl.
  - apply validateField_error.
  - exact C.
Qed.

(** X13: after the input listener of a field has run, the field has the class
    "error" exactly when it had it before and its value still fails the
    checks: typing never makes an error appear on a field that showed none,
    and an error never outlives the mistake. *)
Theorem onInput_error (labels : list (string * string))
    (input : element) (errorEl : option element) :
  contains "error" (classList (fst (onInput labels input errorEl))) =
    (contains "error" (classList input) && negb (fst (validate labels input)))%bool /\
  validate labels (fst (onInput labels input errorEl)) = validate labels input.
Proof.
  split; [apply onInput_error_class|].
  unfold onInput. destruct (contains "error" (classList input)); simpl.
  - apply validateField_error.
  - reflexivity.
Qed.

Lemma counterInput_input (input counter : element) :
  fst (counterInput input counter) =
    if (MAX_MESSAGE_LENGTH <? length (value input))%nat
    then setClassList (add "error" (classList input)) input
    else if truthy (touched input) then input
         else setClassList (remove "error" (classList input)) input.
Proof.
  unfold counterInput.
  now destruct (MAX_MESSAGE_LENGTH <? length (value input))%nat.
Qed.

(** X14: the same for the message field, whose counter listener runs first: the
    field shows "error" after an input event exactly when its value fails
    the checks and either the raw value is longer than 1000 characters or a
    touched field showed the error before. *)
Theorem onMessageInput_error (labels : list (string * string))
    (input : element) (errorEl : option element) (counter : element) :
  contains "error" (classList (fst (fst (onMessageInput labels input errorEl counter)))) =
    (((1000 <? length (value input))%nat ||
      (contains "error" (classList input) && truthy (touched input))) &&
     negb (fst (validate labels input)))%bool.
Proof.
  unfold onMessageInput.
  pose proof (counterInput_input input counter) as E.
  destruct (counterInput input counter) as [input1 counter1]. simpl in E. subst input1.
  simpl. rewrite onInput_error_class.
  unfold MAX_MESSAGE_LENGTH.
  destruct (1000 <? length (value input))%nat; simpl.
  - now rewrite contains_add_same.
  - destruct (truthy (touched input)); simpl.
    + now rewrite andb_true_r.
    + rewrite contains_remove_same. now rewrite andb_false_r.
Qed.

Lemma length_trimStart (s : string) : length (JS.trimStart s) <= length s.
Proof.
  induction s as [|c s IH]; simpl; [lia|].
  destruct (JS.isWhiteSpace c); simpl; lia.
Qed.

Lemma length_trimEnd (s : string) : length (JS.trimEnd s) <= length s.
Proof.
  induction s as [|c s IH]; simpl; [lia|].
  destruct (JS.trimEnd s); [destruct (JS.isWhiteSpace c)|]; simpl in *; lia.
Qed.

Lemma length_trim (s : string) : length (JS.trim s) <= length s.
Proof.
  unfold JS.trim. pose proof (length_trimEnd (JS.trimStart s)).
  pose proof (length_trimStart s). lia.
Qed.

(** X15: when the trimmed text of the message field is longer than 1000
    characters, an input event alone, before any blur or submit, makes the
    field invalid: class "error", aria-invalid "true", the error element
    visible with the text of the limit, and the counter in its error state
    with the raw length in its text. *)
Theorem onMessageInput_limit (labels : list (string * string))
    (input errorEl counter : element) :
  id input = "contact-message"%string ->
  type input <> "email"%string ->
  1000 < length (JS.trim (value input)) ->
  let r := onMessageInput labels input (Some errorEl) counter in
  contains "error" (classList (fst (fst r))) = true /\
  ariaInvalid (fst (fst r)) = Some "true"%string /\
  (exists e, snd (fst r) = Some e /\
             textContent e = "Message cannot exceed 1000 characters"%string /\
             contains "visible" (classList e) = true) /\
  textContent (snd r) =
    (numberToString (length (value input)) ++ " / 1000")%string /\
  contains "error" (classList (snd r)) = true.
Proof.
  intros Hid Hty Hlen r. subst r.
  pose proof (length_trim (value input)) as Hraw.
  assert (Hmax : (MAX_MESSAGE_LENGTH <? length (value input))%nat = true)
    by (apply Nat.ltb_lt; unfold MAX_MESSAGE_LENGTH; lia).
  assert (V : validate labels input =
              (false, "Message cannot exceed 1000 characters"%string)).
  { unfold validate. rewrite Hid. apply String.eqb_neq in Hty. rewrite Hty.
    destruct (String.eqb_spec (JS.trim (value input)) "") as [E|E].
    - rewrite E in Hlen. simpl in Hlen. lia.
    - rewrite andb_false_r. simpl.
      assert (L : (MAX_MESSAGE_LENGTH <? length (JS.trim (value input)))%nat = true)
        by (apply Nat.ltb_lt; unfold MAX_MESSAGE_LENGTH; lia).
      now rewrite L. }
  unfold onMessageInput, counterInput. rewrite Hmax.
  unfold onInput. simpl classList at 1. rewrite contains_add_same.
  rewrite validateField_unfold.
  match goal with
  | |- context [validate labels ?x] =>
      rewrite (validate_ext labels x input) by reflexivity
  end.
  rewrite V. simpl.
  rewrite contains_remove_other, !contains_add_same by discriminate.
  repeat split. eexists. repeat split. simpl. apply contains_add_same.
Qed.

(** *** The label text *)

Lemma removeMarks_no_asterisk (s : string) (k : nat) :
  occurrences "*" (removeMarks k s) = 0.
Proof.
  revert k; induction s as [|c s IH]; intros k; [reflexivity|].
  simpl removeMarks. destruct k as [|k]; [|apply IH].
  destruct (matchMark (String c s)) as [n|] eqn:M; [apply IH|].
  simpl. rewrite IH.
  destruct (Ascii.eqb_spec c "*") as [E|E]; [|reflexivity].
  subst c. discriminate.
Qed.

Lemma occurrences_trimStart (c : ascii) (s : string) :
  occurrences c (JS.trimStart s) <= occurrences c s.
Proof.
  induction s as [|d s IH]; simpl; [lia|].
  destruct (JS.isWhiteSpace d); simpl; lia.
Qed.

Lemma occurrences_trimEnd (c : ascii) (s : string) :
  occurrences c (JS.trimEnd s) <= occurrences c s.
Proof.
  induction s as [|d s IH]; simpl; [lia|].
  destruct (JS.trimEnd s); [destruct (JS.isWhiteSpace d)|]; simpl in *; lia.
Qed.

Lemma occurrences_trim (c : ascii) (s : string) :
  occurrences c (JS.trim s) <= occurrences c s.
Proof.
  unfold JS.trim. pose proof (occurrences_trimEnd c (JS.trimStart s)).
  pose proof (occurrences_trimStart c s). lia.
Qed.

(** X16: the text that [getLabelText] takes from a label has no asterisk and no
    white space at its ends. *)
Theorem getLabelText_clean (labels : list (string * string))
    (input : element) (text : string) :
  queryLabel labels (id input) = Some text ->
  occurrences "*" (getLabelText labels input) = 0 /\
  JS.trim (getLabelText labels input) = getLabelText labels input.
Proof.
  intros Q. unfold getLabelText. rewrite Q. split.
  - pose proof (occurrences_trim "*" (removeMarks 0 text)) as H.
    rewrite removeMarks_no_asterisk in H. lia.
  - apply trim_idem.
Qed.

Lemma occurrences_drop (c : ascii) (n : nat) (s : string) :
  occurrences c s = 0 -> occurrences c (drop n s) = 0.
Proof.
  revert s; induction n as [|n IH]; intros s H; [exact H|].
  destruct s as [|d s]; [reflexivity|]. simpl. apply IH. simpl in H. lia.
Qed.

Lemma includes_tail (sub : string) (c : ascii) (s : string) :
  JS.includes sub (String c s) = false ->
  JS.startsWith sub (String c s) = false /\ JS.includes sub s = false.
Proof. simpl. intros H. now apply orb_false_iff in H. Qed.

Lemma includes_drop (sub : string) (n : nat) (s : string) :
  JS.includes sub s = false -> JS.includes sub (drop n s) = false.
Proof.
  revert s; induction n as [|n IH]; intros s H; [exact H|].
  destruct s as [|d s]; [exact H|]. simpl drop. apply IH.
  now apply includes_tail in H.
Qed.

Lemma includes_startsWith (sub s : string) :
  JS.includes sub s = false -> JS.startsWith sub s = false.
Proof.
  destruct s as [|c s]; intros H.
  - simpl in H. now apply orb_false_iff in H.
  - now apply includes_tail in H.
Qed.

Lemma matchMark_unmarked (s : string) :
  occurrences "*" s = 0 -> JS.includes "(Optional)" s = false ->
  matchMark s = None.
Proof.
  intros O I. unfold matchMark.
  pose proof (occurrences_drop "*" (spaces s) s O) as Or.
  pose proof (includes_startsWith _ _ (includes_drop _ (spaces s) s I)) as Sr.
  set (r := drop (spaces s) s) in *.
  rewrite Sr. destruct r as [|c r]; [reflexivity|].
  destruct (Ascii.eqb_spec c "*") as [E|E].
  - subst c. simpl in Or. discriminate.
  - destruct c as [[] [] [] [] [] [] [] []]; try reflexivity. congruence.
Qed.

Lemma removeMarks_unmarked (s : string) :
  occurrences "*" s = 0 -> JS.includes "(Optional)" s = false ->
  removeMarks 0 s = s.
Proof.
  induction s as [|c s IH]; intros O I; [reflexivity|].
  simpl removeMarks. rewrite (matchMark_unmarked _ O I).
  f_equal. apply IH.
  - simpl in O. lia.
  - now apply includes_tail in I.
Qed.

(** X17: a label text that has neither an asterisk nor "(Optional)" is taken as
    it is, trimmed. *)
Theorem getLabelText_unmarked (labels : list (string * string))
    (input : element) (text : string) :
  queryLabel labels (id input) = Some text ->
  occurrences "*" text = 0 ->
  JS.includes "(Optional)" text = false ->
  getLabelText labels input = JS.trim text.
Proof.
  intros Q O I. unfold getLabelText. now rewrite Q, removeMarks_unmarked.
Qed.

(** *** Escape *)

Lemma validate_empty (labels : list (string * string)) (input : element) :
  fst (validate labels (setValue "" input)) = negb (required input).
Proof.
  unfold validate. simpl. destruct (required input); simpl; [reflexivity|].
  rewrite !andb_false_r. simpl.
  now destruct (id input =? "contact-message")%string.
Qed.

(** X18: escape on the message input, which has the class form-input, empties
    it and resets the counter to "0 / 1000" without error; the field keeps
    the class "error" only if it is required, was touched and showed an
    error before. *)
Theorem escape_clears_message (labels : list (string * string))
    (input : element) (errorEl : option element) (counter : element) :
  contains "form-input" (classList input) = true ->
  let r := formKeydown "Escape" labels input errorEl counter in
  value (fst (fst r)) = ""%string /\
  textContent (snd r) = "0 / 1000"%string /\
  contains "error" (classList (snd r)) = false /\
  contains "error" (classList (fst (fst r))) =
    (contains "error" (classList input) && truthy (touched input) &&
     required input)%bool.
Proof.
  intros F r. subst r. unfold formKeydown. simpl. rewrite F.
  unfold onMessageInput, counterInput. simpl.
  split; [|split; [reflexivity|split; [apply contains_remove_same|]]].
  - unfold onInput.
    destruct (truthy (touched input)); simpl.
    + destruct (contains "error" (classList input)); [|reflexivity].
      rewrite validateField_unfold.
      now destruct (fst (validate labels (setValue "" input))).
    + rewrite contains_remove_same. reflexivity.
  - rewrite onInput_error_class.
    destruct (truthy (touched input)); simpl.
    + rewrite validate_empty, negb_involutive. now rewrite andb_true_r.
    + rewrite contains_remove_same. now rewrite andb_false_r.
Qed.

End ContactFormFacts.

(** *** Concrete runs on the sample form *)

Lemma EMAIL_REGEX_one_at_witness :
  ContactForm.test ContactForm.EMAIL_REGEX "aryan.yadav.prof@gmail.com" = true /\
  every (fun c => negb (JS.isWhiteSpace c)) "aryan.yadav.prof@gmail.com" = true /\
  occurrences "@" "aryan.yadav.prof@gmail.com" = 1 /\
  JS.startsWith "@" "aryan.yadav.prof@gmail.com" = false /\
  exists before after,
    "aryan.yadav.prof@gmail.com" = before ++ "@" ++ after /\
    before <> "" /\ after <> "".
Proof.
  split; [reflexivity|].
  exact (ContactFormFacts.EMAIL_REGEX_one_at "aryan.yadav.prof@gmail.com" eq_refl).
Defined.

Lemma validateField_padded_witness :
  JS.allWhiteSpace "  " = true /\ JS.allWhiteSpace " " = true /\
  ContactForm.validate sampleLabels
    (ContactForm.setValue ("  " ++ "a@b.c" ++ " ") (sampleEmail "")) =
    ContactForm.validate sampleLabels (ContactForm.setValue "a@b.c" (sampleEmail "")) /\
  snd (ContactForm.validateField sampleLabels
         (ContactForm.setValue ("  " ++ "a@b.c" ++ " ") (sampleEmail ""))
         (Some sampleError)) =
    snd (ContactForm.validateField sampleLabels
           (ContactForm.setValue "a@b.c" (sampleEmail "")) (Some sampleError)).
Proof.
  split; [reflexivity|]. split; [reflexivity|].
  exact (ContactFormFacts.validateField_padded sampleLabels (sampleEmail "")
           (Some sampleError) "  " "a@b.c" " " eq_refl eq_refl).
Defined.

Lemma message_bounds_witness :
  ContactForm.id (sampleMessage "Hello, Aryan!") = "contact-message" /\
  ContactForm.type (sampleMessage "Hello, Aryan!") <> "email" /\
  (snd (ContactForm.validateField sampleLabels (sampleMessage "Hello, Aryan!")
          (Some sampleError)) = true <->
   (ContactForm.required (sampleMessage "Hello, Aryan!") = false /\
    JS.trim (ContactForm.value (sampleMessage "Hello, Aryan!")) = "") \/
   (10 <= length (JS.trim (ContactForm.value (sampleMessage "Hello, Aryan!"))) <= 1000)).
Proof.
  assert (H : ContactForm.type (sampleMessage "Hello, Aryan!") <> "email")
    by discriminate.
  split; [reflexivity|]. split; [exact H|].
  exact (ContactFormFacts.message_bounds sampleLabels (sampleMessage "Hello, Aryan!")
           (Some sampleError) eq_refl H).
Defined.

Lemma email_field_witness :
  ContactForm.type (sampleEmail "me@example.org") = "email" /\
  ContactForm.id (sampleEmail "me@example.org") <> "contact-message" /\
  (snd (ContactForm.validateField sampleLabels (sampleEmail "me@example.org")
          (Some sampleError)) = true <->
   (ContactForm.required (sampleEmail "me@example.org") = false /\
    JS.trim (ContactForm.value (sampleEmail "me@example.org")) = "") \/
   ContactForm.test ContactForm.EMAIL_REGEX
     (JS.trim (ContactForm.value (sampleEmail "me@example.org"))) = true).
Proof.
  assert (H : ContactForm.id (sampleEmail "me@example.org") <> "contact-message")
    by discriminate.
  split; [reflexivity|]. split; [exact H|].
  exact (ContactFormFacts.email_field sampleLabels (sampleEmail "me@example.org")
           (Some sampleError) eq_refl H).
Defined.

Lemma onMessageInput_limit_witness :
  ContactForm.id (sampleMessage (replicate 1001 "x")) = "contact-message" /\
  ContactForm.type (sampleMessage (replicate 1001 "x")) <> "email" /\
  1000 < length (JS.trim (ContactForm.value (sampleMessage (replicate 1001 "x")))) /\
  let r := ContactForm.onMessageInput sampleLabels (sampleMessage (replicate 1001 "x"))
             (Some sampleError) sampleCounter in
  ContactForm.contains "error" (ContactForm.classList (fst (fst r))) = true /\
  ContactForm.ariaInvalid (fst (fst r)) = Some "true" /\
  (exists e, snd (fst r) = Some e /\
             ContactForm.textContent e = "Message cannot exceed 1000 characters" /\
             ContactForm.contains "visible" (ContactForm.classList e) = true) /\
  ContactForm.textContent (snd r) =
    ContactForm.numberToString
      (length (ContactForm.value (sampleMessage (replicate 1001 "x")))) ++ " / 1000" /\
  ContactForm.contains "error" (ContactForm.classList (snd r)) = true.
Proof.
  assert (H : ContactForm.type (sampleMessage (replicate 1001 "x")) <> "email")
    by discriminate.
  assert (L : 1000 <
              length (JS.trim (ContactForm.value (sampleMessage (replicate 1001 "x")))))
    by (apply Nat.ltb_lt; vm_compute; reflexivity).
  split; [reflexivity|]. split; [exact H|]. split; [exact L|].
  exact (ContactFormFacts.onMessageInput_limit sampleLabels
           (sampleMessage (replicate 1001 "x")) sampleError sampleCounter eq_refl H L).
Defined.

Lemma getLabelText_clean_witness :
  ContactForm.queryLabel sampleLabels (ContactForm.id (sampleMessage "")) =
    Some "Message *" /\
  occurrences "*" (ContactForm.getLabelText sampleLabels (sampleMessage "")) = 0 /\
  JS.trim (ContactForm.getLabelText sampleLabels (sampleMessage "")) =
    ContactForm.getLabelText sampleLabels (sampleMessage "").
Proof.
  split; [reflexivity|].
  exact (ContactFormFacts.getLabelText_clean sampleLabels (sampleMessage "")
           "Message *" eq_refl).
Defined.

Lemma getLabelText_unmarked_witness :
  ContactForm.queryLabel [("contact-message", " Your message ")]
    (ContactForm.id (sampleMessage "")) = Some " Your message " /\
  occurrences "*" " Your message " = 0 /\
  JS.includes "(Optional)" " Your message " = false /\
  ContactForm.getLabelText [("contact-message", " Your message ")] (sampleMessage "") =
    JS.trim " Your message ".
Proof.
  do 3 (split; [reflexivity|]).
  exact (ContactFormFacts.getLabelText_unmarked [("contact-message", " Your message ")]
           (sampleMessage "") " Your message " eq_refl eq_refl eq_refl).
Defined.

Lemma escape_clears_message_witness :
  ContactForm.contains "form-input"
    (ContactForm.classList (sampleMessage "draft")) = true /\
  let r := ContactForm.formKeydown "Escape" sampleLabels (sampleMessage "draft")
             (Some sampleError) sampleCounter in
  ContactForm.value (fst (fst r)) = "" /\
  ContactForm.textContent (snd r) = "0 / 1000" /\
  ContactForm.contains "error" (ContactForm.classList (snd r)) = false /\
  ContactForm.contains "error" (ContactForm.classList (fst (fst r))) =
    (ContactForm.contains "error" (ContactForm.classList (sampleMessage "draft")) &&
     ContactForm.truthy (ContactForm.touched (sampleMessage "draft")) &&
     ContactForm.required (sampleMessage "draft"))%bool.
Proof.
  split; [reflexivity|].
  exact (ContactFormFacts.escape_clears_message sampleLabels (sampleMessage "draft")
           (Some sampleError) sampleCounter eq_refl).
Defined.
